(** * main.py: daily closes, one-percent changes, a headline per change, a report

    A shallow embedding of [main.py].  Python values are modelled by the data
    the program handles: JSON payloads as trees, pandas frames and series as
    labelled lists, [numpy.float64] as the kernel's binary64 [float], and the
    outside world (HTTP requests, files, the console, the database) as an
    explicit state threaded through a state-and-exception monad. *)

From Stdlib Require Import Floats ZArith String Ascii Uint63 Lia.
From stdpp Require Import gmap strings list sorting.

Set Warnings "-inexact-float,-register-all".

(** ** Exceptions *)

(** The exceptions that can travel through the program.  All of them are
    subclasses of Python's [Exception].  [EmptyResultException] is the class
    declared at the top of [main.py]; the others are raised by the
    interpreter, by pandas or numpy, by [requests], and by the database layer. *)
Inductive exn : Type :=
| KeyError
| IndexError
| ValueError
| TypeError
| HTTPError
| ConnectionError
| JSONDecodeError
| OSError
| DatabaseError
| EmptyResultException (msg val : string).

Definition is_KeyError (e : exn) : bool :=
  match e with KeyError => true | _ => false end.

(** ** JSON payloads *)

(** The market-data payload is built from objects and strings only (every
    number is sent as text).  An object is the list of its items in insertion
    order, as a Python [dict] keeps them; keys are unique in a [dict]. *)
Inductive json : Type :=
| JStr (s : string)
| JObj (fields : list (string * json)).

(** The value of a field of a news article: text, [null], or a nested object
    (the article's source). *)
Inductive field : Type :=
| FNull
| FStr (s : string)
| FObj (sub : list (string * field)).

Definition article : Type := list (string * field).

(** The news payload, seen through the one key the program reads:
    [articles = None] when the response object has no ["articles"] key. *)
Record news_json : Type := { articles : option (list article) }.

(** [d.get(k)] on the items of a [dict]. *)
Fixpoint dict_get {V : Type} (k : string) (d : list (string * V)) : option V :=
  match d with
  | [] => None
  | (k', v) :: d' => if String.eqb k k' then Some v else dict_get k d'
  end.

(** [d[k]], where [d] is whatever [response.json()] returned. *)
Definition getitem (d : json) (k : string) : exn + json :=
  match d with
  | JObj fields =>
      match dict_get k fields with
      | Some v => inr v
      | None => inl KeyError
      end
  | JStr _ => inl TypeError
  end.

(** ** pandas: frames and series *)

(** A cell of an object-typed frame: a value, or [None] for the missing-value
    marker (NaN). *)
Definition cell (V : Type) : Type := option V.

(** A series: its items in position order, each with its index label. *)
Abbreviation Series V := (list (string * V)) (only parsing).

(** A frame built from a [dict] of columns: the row labels, and for each
    column its label and the value it was built from (a [dict] from row
    label to cell, or a scalar repeated on every row). *)
Record DataFrame : Type := {
  index : list string;
  columns : list (string * json)
}.

(** The row labels of [pd.DataFrame(dict)]: the keys of the [dict]-valued
    columns, each at its first appearance. *)
Fixpoint add_keys (seen : list string) (ks : list string) : list string :=
  match ks with
  | [] => seen
  | k :: ks' =>
      if existsb (String.eqb k) seen then add_keys seen ks'
      else add_keys (seen ++ [k]) ks'
  end.

Definition keys_of (v : json) : list string :=
  match v with
  | JObj fields => map fst fields
  | JStr _ => []
  end.

Definition union_indexes (cols : list (string * json)) : list string :=
  fold_left (fun seen c => add_keys seen (keys_of (snd c))) cols [].

Definition is_dict (v : json) : bool :=
  match v with JObj _ => true | JStr _ => false end.

(** [pd.DataFrame(data)].  A string is refused; so is a non-empty [dict]
    whose values are all scalars (there is no index to repeat them on). *)
Definition pd_DataFrame (data : json) : exn + DataFrame :=
  match data with
  | JStr _ => inl ValueError
  | JObj cols =>
      if existsb (fun c => is_dict (snd c)) cols || Nat.eqb (length cols) 0
      then inr {| index := union_indexes cols; columns := cols |}
      else inl ValueError
  end.

(** The cell of a column at a row label. *)
Definition cell_at (col : json) (row : string) : cell json :=
  match col with
  | JObj fields => dict_get row fields
  | JStr s => Some (JStr s)
  end.

(** [df.iloc[row, :ncols]]: the row at position [row], cut to the first
    [ncols] columns; a series labelled by the column labels. *)
Definition iloc (df : DataFrame) (row ncols : nat) : exn + Series (cell json) :=
  match index df !! row with
  | None => inl IndexError
  | Some r => inr (map (fun c => (fst c, cell_at (snd c) r)) (take ncols (columns df)))
  end.

(** [s[i]] with an integer [i] on a series labelled by strings: pandas
    falls back to positions, and gives the item at position [i]. *)
Definition series_getitem {V : Type} (s : Series V) (i : nat) : exn + V :=
  match s !! i with
  | Some (_, v) => inr v
  | None => inl IndexError
  end.

(** [s.sort_index()]: ascending by label, strings compared character by
    character. *)
Fixpoint insert_label {V : Type} (x : string * V) (s : Series V) : Series V :=
  match s with
  | [] => [x]
  | y :: s' =>
      if String.leb (fst x) (fst y) then x :: y :: s' else y :: insert_label x s'
  end.

Definition sort_index {V : Type} (s : Series V) : Series V :=
  foldr insert_label [] s.

(** [s[s == v].index[0]]: the label of the first item whose value equals
    [v] ([==] of floats: NaN equals nothing, the two zeros are equal). *)
Fixpoint first_label_eq (s : Series float) (v : float) : exn + string :=
  match s with
  | [] => inl IndexError
  | (d, x) :: s' => if (x =? v)%float then inr d else first_label_eq s' v
  end.

(** [pd.DataFrame(records)] for a list of [dict]s: one row per record,
    labelled [0, 1, ...]; the columns are the keys of the records. *)
Definition record_columns (records : list article) : list string :=
  fold_left (fun seen a => add_keys seen (map fst a)) records [].

(** [df.loc[row, col]] on such a frame. *)
Definition loc (records : list article) (row : nat) (col : string) : exn + cell field :=
  match records !! row with
  | None => inl KeyError
  | Some a =>
      if existsb (String.eqb col) (record_columns records)
      then inr (dict_get col a)
      else inl KeyError
  end.

(** ** numpy.float64 arithmetic *)

(** [rint]: the nearest integer, ties to even.  Below [2^52] in magnitude,
    adding and subtracting [2^52] leaves the rounded value; from [2^52] on
    every float is an integer already.  NaN and the infinities come back as
    they are. *)
Definition two52 : float := 4503599627370496%float.

Definition rint (x : float) : float :=
  if (abs x <? two52)%float then
    let t := abs ((abs x + two52) - two52)%float in
    if (x <? 0)%float then (- t)%float
    else if (0 <? x)%float then t
    else x
  else x.

(** [round(x, 2)] on a [numpy.float64]: scale by [10**2], round to an
    integer, scale back. *)
Definition round2 (x : float) : float := (rint (x * 100) / 100)%float.

(** ** Rows of the report *)

(** One row under [column_names]. *)
Record event : Type := {
  Company : string;
  Date : string;
  Positive_change : float;
  Title_of_most_recent_article : cell field
}.

(** ** The outside world *)

(** An HTTP GET: the address and the query parameters. *)
Record request : Type := { url : string; params : list (string * string) }.

(** What a file holds: a dumped response, or the rows of a frame written
    with [to_csv] under the header of [column_names]. *)
Inductive file : Type :=
| StockDump (j : json)
| NewsDump (n : news_json)
| Csv (rows : list event).

(** A record handed to [logging.error]. *)
Inductive log_record : Type :=
| LogExn (e : exn)
| LogText (s : string).

(** The state of the world: the requests sent so far, the files on disk,
    the records given to [logging.error], the rows printed, and the database
    behind [sql_engine]. *)
Record world (DB : Type) : Type := {
  requests : list request;
  files : gmap string file;
  errors_logged : list log_record;
  printed : list event;
  database : DB
}.

Arguments requests {DB} _.
Arguments files {DB} _.
Arguments errors_logged {DB} _.
Arguments printed {DB} _.
Arguments database {DB} _.

(** ** Sample payloads and services

    Concrete inputs on which the program is run further down: a reader of
    decimal text, payloads in the shape the two services document, and
    services that answer with them. *)
Module Sample.

Definition digit_of (c : ascii) : option Z :=
  let n := Z.of_N (N_of_ascii c) in
  if ((48 <=? n) && (n <=? 57))%Z then Some (n - 48)%Z else None.

(** Reads the digits at the head of [s]: their value on top of [acc], how
    many there were, and the rest of the text. *)
Fixpoint digits (s : string) (acc : Z) (len : nat) : Z * nat * string :=
  match s with
  | EmptyString => (acc, len, EmptyString)
  | String c s' =>
      match digit_of c with
      | Some d => digits s' (10 * acc + d)%Z (S len)
      | None => (acc, len, s)
      end
  end.

Definition float_of_Z (m : Z) : float := of_uint63 (of_Z m).

(** [float(s)] on plain decimal text: digits, then optionally a point and
    more digits.  With fewer than [2^53] for the digits read as one integer
    and at most 22 decimals, that integer and the power of ten are floats and
    their quotient, rounded once, is the float nearest to the decimal.  Any
    other text is refused here, although Python reads more than this. *)
Definition float_of_decimal (s : string) : option float :=
  match digits s 0%Z 0 with
  | (ip, S _, EmptyString) =>
      if (ip <? 2 ^ 53)%Z then Some (float_of_Z ip) else None
  | (ip, S _, String "."%char fr) =>
      match digits fr ip 0 with
      | (m, k, EmptyString) =>
          if ((m <? 2 ^ 53)%Z && (k <=? 22)%nat)
          then Some (float_of_Z m / float_of_Z (10 ^ Z.of_nat k))%float
          else None
      | _ => None
      end
  | _ => None
  end.

(** One day of the daily series. *)
Definition day (open high low close volume : string) : json :=
  JObj [("1. open", JStr open); ("2. high", JStr high); ("3. low", JStr low);
        ("4. close", JStr close); ("5. volume", JStr volume)]%string.

(** A market-data response with four days, most recent first, closing at
    [c5], [c4], [c3] and [c2]. *)
Definition daily (c5 c4 c3 c2 : string) : json :=
  JObj [("Meta Data", JObj [("1. Information", JStr "Daily Prices")]);
        ("Time Series (Daily)",
         JObj [("2023-01-05", day "1.0" "2.0" "0.5" c5 "1000");
               ("2023-01-04", day "1.0" "2.0" "0.5" c4 "1000");
               ("2023-01-03", day "1.0" "2.0" "0.5" c3 "1000");
               ("2023-01-02", day "1.0" "2.0" "0.5" c2 "1000")])]%string.


Definition api_keys : list (string * string) :=
  [("alphavantage", "key-a"); ("newsapi", "key-n")]%string.

Definition db_conf : list (string * string) :=
  [("user", "u"); ("password", "p"); ("port", "3306"); ("db", "d");
   ("table_name", "report")]%string.

Definition headline : news_json :=
  {| articles := Some [[("author", FNull); ("title", FStr "Shares move")]]%string |}.

Definition no_articles : news_json := {| articles := Some [] |}.

(** A list whose first article has no title while the second has one. *)
Definition untitled_first : news_json :=
  {| articles := Some [[("author", FStr "A. Writer")];
                       [("author", FNull); ("title", FStr "Shares move")]]%string |}.

Definition news_answers (n : news_json) : list request -> request -> exn + news_json :=
  fun _ _ => inr n.

Definition stock_answers (j : json) : list request -> request -> exn + json :=
  fun _ _ => inr j.

(** Answers with [j], except for the symbol [down], whose request fails. *)
Definition stock_answers_but (down : string) (j : json)
    : list request -> request -> exn + json :=
  fun _ r =>
    match dict_get "symbol" (params r) with
    | Some s => if String.eqb s down then inl HTTPError else inr j
    | None => inl HTTPError
    end.

(** A database that is a list of rows; one that is down. *)
Definition to_sql_ok (table : string) (df : list event) (db : list event)
    : option exn * list event := (None, db ++ df).

Definition to_sql_down (table : string) (df : list event) (db : list event)
    : option exn * list event := (Some DatabaseError, db).

Definition read_sql_oracle (query : string) (db : list event)
    : (exn + list event) * list event :=
  (inr (List.filter (fun e => String.eqb (Company e) "Oracle") db), db).

Definition read_sql_down (query : string) (db : list event)
    : (exn + list event) * list event := (inl DatabaseError, db).

Definition start : world (list event) :=
  {| requests := []; files := ∅; errors_logged := []; printed := [];
     database := [] |}.

End Sample.

Section Program.

(** [float(s)], as [astype(float)] applies it to a cell holding text;
    [None] when Python raises [ValueError]. *)
Variable float_of_str : string -> option float.

(** The two configuration modules imported by [main.py]: [ApiKeys.api_keys]
    and [DbConf.db_conf]. *)
Variable api_keys : list (string * string).
Variable db_conf : list (string * string).

(** The remote services.  A call is answered from the requests made so far
    and the request itself: either the decoded body, or the exception raised
    by [requests.get], [raise_for_status] or [response.json]. *)
Variable stock_service : list request -> request -> exn + json.
Variable news_service : list request -> request -> exn + news_json.

(** The database behind [sql_engine]: [df.to_sql(table, engine,
    if_exists='append', index=False)] and [pd.read_sql(query, engine)]. *)
Variable DB : Type.
Variable to_sql : string -> list event -> DB -> option exn * DB.
Variable read_sql : string -> DB -> (exn + list event) * DB.

(** *** The monad of the program: state and exceptions *)

Definition M (A : Type) : Type := world DB -> (exn + A) * world DB.

Definition ret {A : Type} (a : A) : M A := fun w => (inr a, w).

Definition raise {A : Type} (e : exn) : M A := fun w => (inl e, w).

Definition bind {A B : Type} (m : M A) (k : A -> M B) : M B :=
  fun w =>
    match m w with
    | (inr a, w') => k a w'
    | (inl e, w') => (inl e, w')
    end.

(** A pure step that may raise. *)
Definition lift {A : Type} (r : exn + A) : M A := fun w => (r, w).

(** [try: m  except ...: h e]. *)
Definition try_except {A : Type} (m : M A) (h : exn -> M A) : M A :=
  fun w =>
    match m w with
    | (inr a, w') => (inr a, w')
    | (inl e, w') => h e w'
    end.

#[global] Instance M_ret : MRet M := @ret.
#[global] Instance M_bind : MBind M := fun A B k m => bind m k.

Definition send {A : Type} (service : list request -> request -> exn + A) (r : request) : M A :=
  fun w =>
    (service (requests w) r,
     {| requests := requests w ++ [r]; files := files w;
        errors_logged := errors_logged w; printed := printed w;
        database := database w |}).

Definition write_file (name : string) (f : file) : M unit :=
  fun w =>
    (inr tt,
     {| requests := requests w; files := <[name := f]> (files w);
        errors_logged := errors_logged w; printed := printed w;
        database := database w |}).

Definition logging_error (r : log_record) : M unit :=
  fun w =>
    (inr tt,
     {| requests := requests w; files := files w;
        errors_logged := errors_logged w ++ [r]; printed := printed w;
        database := database w |}).

Definition print (e : event) : M unit :=
  fun w =>
    (inr tt,
     {| requests := requests w; files := files w;
        errors_logged := errors_logged w; printed := printed w ++ [e];
        database := database w |}).

Definition with_database {A : Type} (op : DB -> A * DB) : world DB -> A * world DB :=
  fun w =>
    let (a, db) := op (database w) in
    (a,
     {| requests := requests w; files := files w;
        errors_logged := errors_logged w; printed := printed w;
        database := db |}).

(** [d[k]] on a configuration [dict]. *)
Definition conf_get (d : list (string * string)) (k : string) : M string :=
  match dict_get k d with
  | Some v => ret v
  | None => raise KeyError
  end.

(** A string literal between double quotes, inside a query. *)
Definition quoted (s : string) : string :=
  String "034"%char (s +:+ String "034"%char EmptyString).

(** *** The functions of main.py *)

(** [execute_request]: the GET, the status check and the decoding are the
    service's answer; a decoded body is dumped to [{topic}_{company}.json]
    and returned.  Both handlers re-raise.  [dump] is the constructor of the
    file for the kind of body the service returns. *)
Definition execute_request {A : Type} (service : list request -> request -> exn + A)
    (dump : A -> file) (url : string) (params : list (string * string))
    (topic company : string) : M A :=
  try_except
    (response_json ← send service {| url := url; params := params |};
     write_file (topic +:+ "_" +:+ company +:+ ".json") (dump response_json);;
     ret response_json)
    (fun e => raise e).

(** The query parameters built by [get_stock_prices] and by [get_news]. *)
Definition stock_params (stock key : string) : list (string * string) :=
  [("function", "TIME_SERIES_DAILY"); ("symbol", stock); ("apikey", key)]%string.

Definition news_params (company_name from_date key : string) : list (string * string) :=
  [("q", company_name); ("from", from_date); ("sortBy", "popularity");
   ("apiKey", key)]%string.

Definition get_stock_prices (stock : string) : M json :=
  let url := "https://www.alphavantage.co/query"%string in
  key ← conf_get api_keys "alphavantage";
  let params := stock_params stock key in
  try_except
    (execute_request stock_service StockDump url params "stock" stock)
    (fun e => raise e).

Definition get_news (company_name from_date : string) : M news_json :=
  let url := "https://newsapi.org/v2/everything"%string in
  key ← conf_get api_keys "newsapi";
  let params := news_params company_name from_date key in
  try_except
    (execute_request news_service NewsDump url params "news" company_name)
    (fun e => raise e).

Definition process_news (news_json : news_json) : M (cell field) :=
  try_except
    (records ← lift (match articles news_json with
                      | Some l => inr l
                      | None => inl KeyError
                      end);
     lift (loc records 0 "title"))
    (fun e =>
       if is_KeyError e then
         logging_error (LogText "No articles found!");;
         ret (Some (FStr "No articles found!"))
       else raise e).

(** [astype(float)] on an object-typed series: text is parsed, the
    missing-value marker becomes NaN, a [dict] is refused. *)
Definition to_float (c : cell json) : exn + float :=
  match c with
  | None => inr nan
  | Some (JStr s) =>
      match float_of_str s with
      | Some x => inr x
      | None => inl ValueError
      end
  | Some (JObj _) => inl TypeError
  end.

Fixpoint astype_float (s : Series (cell json)) : exn + Series float :=
  match s with
  | [] => inr []
  | (d, c) :: s' =>
      match to_float c with
      | inl e => inl e
      | inr x =>
          match astype_float s' with
          | inl e => inl e
          | inr r => inr ((d, x) :: r)
          end
      end
  end.

(** Lines 72 to 76: the window [df.iloc[3, :3]], as floats, sorted by label. *)
Definition last_3_days_closing (df : DataFrame) : exn + Series float :=
  match iloc df 3 3 with
  | inl e => inl e
  | inr row =>
      match astype_float row with
      | inl e => inl e
      | inr prices => inr (sort_index prices)
      end
  end.

(** Lines 79 to 104: the loop over [enumerate(df_last_3_days_closing)].
    [todo] holds the items not visited yet and [index] the position of the
    first of them. *)
Fixpoint change_loop (company_name : string) (df_last_3_days_closing : Series float)
    (index : nat) (todo : Series float) (result_df : list event) : M (list event) :=
  match todo with
  | [] => ret result_df
  | (_, stock_price) :: todo' =>
      let one_percent := (stock_price * 0.01)%float in
      if negb (Z.eqb (Z.of_nat index) (Z.of_nat (length df_last_3_days_closing) - 1)) then
        a ← lift (series_getitem df_last_3_days_closing index);
        b ← lift (series_getitem df_last_3_days_closing (index + 1));
        let positive_change := abs (a - b)%float in
        if (one_percent <=? positive_change)%float then
          let positive_change := round2 positive_change in
          next ← lift (series_getitem df_last_3_days_closing (index + 1));
          change_date ← lift (first_label_eq df_last_3_days_closing next);
          news_response ← get_news company_name change_date;
          article_title ← process_news news_response;
          let row := {| Company := company_name; Date := change_date;
                        Positive_change := positive_change;
                        Title_of_most_recent_article := article_title |} in
          print row;;
          change_loop company_name df_last_3_days_closing (index + 1) todo'
            (result_df ++ [row])
        else
          change_loop company_name df_last_3_days_closing (index + 1) todo' result_df
      else
        change_loop company_name df_last_3_days_closing (index + 1) todo' result_df
  end.

Definition process_stock_prices (stock_name company_name : string) (stock_json : json)
    : M (list event) :=
  try_except
    (series ← lift (getitem stock_json "Time Series (Daily)");
     df ← lift (pd_DataFrame series);
     let result_df := [] in
     df_last_3_days_closing ← lift (last_3_days_closing df);
     change_loop company_name df_last_3_days_closing 0 df_last_3_days_closing result_df)
    (fun e =>
       if is_KeyError e then raise (EmptyResultException "Stock not found!" stock_name)
       else raise e).

Definition df_to_sql (table_name : string) (df : list event) : M unit :=
  fun w =>
    match with_database (to_sql table_name df) w with
    | (Some e, w') => (inl e, w')
    | (None, w') => (inr tt, w')
    end.

Definition pd_read_sql (query : string) : M (list event) :=
  with_database (read_sql query).

Definition load_to_db (df : list event) : M unit :=
  try_except
    (table_name ← conf_get db_conf "table_name";
     df_to_sql table_name df)
    (fun e => raise e).

Definition read_from_db : M unit :=
  try_except
    (table_name ← conf_get db_conf "table_name";
     df ← pd_read_sql ("SELECT * FROM " +:+ table_name +:+ " WHERE Company = "
                        +:+ quoted "Oracle");
     write_file "out_db_result.csv" (Csv df))
    (fun e => raise e).

(** *** The script

    The first statements of the script set the logging level to [WARNING],
    so that the [logging.info] calls of the functions write nothing (they
    are left out above), and build [sql_engine], which opens no connection.
    The model starts at the list of companies. *)

Definition companies : list (string * string) :=
  [("IBM", "Ibm"); ("TSLA", "Tesla"); ("ORCL", "Oracle");
   ("XYZABS", "blablabla"); ("AMZN", "Amazon")]%string.

(** Lines 177 and 178: the two calls inside the [try] of the loop. *)
Definition company_report (key value : string) : M (list event) :=
  stock_json_response ← get_stock_prices key;
  process_stock_prices key value stock_json_response.

(** Lines 173 to 184: the loop over the companies.  Every exception of an
    iteration is handed to [logging.error]; the loop itself cannot raise. *)
Fixpoint batch_loop (items : list (string * string)) (res_df : list event)
    : world DB -> list event * world DB :=
  fun w =>
    match items with
    | [] => (res_df, w)
    | (key, value) :: items' =>
        match company_report key value w with
        | (inr stock_df, w') => batch_loop items' (res_df ++ stock_df) w'
        | (inl ex, w') =>
            batch_loop items' res_df (snd (logging_error (LogExn ex) w'))
        end
    end.

(** Lines 186 to 192: the export of the report, then the database block. *)
Definition persistence_block (res_df : list event) : world DB -> world DB :=
  fun w =>
    match (load_to_db res_df;; read_from_db) w with
    | (inr _, w') => w'
    | (inl ex, w') => snd (logging_error (LogExn ex) w')
    end.

Definition main_with (items : list (string * string)) : world DB -> world DB :=
  fun w =>
    let (res_df, w1) := batch_loop items [] w in
    let w2 := snd (write_file "out_result.csv" (Csv res_df) w1) in
    persistence_block res_df w2.

Definition main : world DB -> world DB := main_with companies.

(** ** The vocabulary of the properties *)

(** A specification float that is a number (not NaN). *)
Definition sf_number (x : spec_float) : Prop :=
  match x with S754_nan => False | _ => True end.

(** A number that is not negative: a zero of either sign, a positive finite
    number, or plus infinity. *)
Definition sf_nonneg (x : spec_float) : Prop :=
  match x with
  | S754_nan => False
  | S754_zero _ => True
  | S754_infinity s | S754_finite s _ _ => s = false
  end.


(** The order of the labels of a series. *)
Definition label_le {V : Type} (a b : string * V) : Prop :=
  String.leb (fst a) (fst b) = true.

(** The world after [logging.error(r)]. *)
Definition logged (r : log_record) (w : world DB) : world DB :=
  snd (logging_error r w).

(** The literal returned when no title can be read. *)
Definition no_articles_found : cell field := Some (FStr "No articles found!").

(** The request [get_news] sends for a company, a date and a key. *)
Definition news_request (company_name from_date key : string) : request :=
  {| url := "https://newsapi.org/v2/everything";
     params := news_params company_name from_date key |}.

(** The label [s[s == v].index[0]] finds, when it finds one. *)
Definition label_of (s : Series float) (v : float) : string :=
  match first_label_eq s v with
  | inr d => d
  | inl _ => EmptyString
  end.

(** The test of line 90 on two neighbours [a] and [b] of the window. *)
Definition one_percent_change (a b : float) : bool :=
  (a * 0.01 <=? abs (a - b))%float.

(** The date and the rounded change the loop records for each pair of
    neighbours of [todo] that passes the test. *)
Fixpoint pair_rows (s todo : Series float) : list (string * float) :=
  match todo with
  | [] => []
  | (_, a) :: todo' =>
      match todo' with
      | [] => []
      | (_, b) :: _ =>
          (if one_percent_change a b
           then [(label_of s b, round2 (abs (a - b)))] else [])
          ++ pair_rows s todo'
      end
  end.


(** A property of what a computation returns, when it returns. *)
Definition on_success {A : Type} (P : A -> Prop) (r : exn + A) : Prop :=
  match r with
  | inr a => P a
  | inl _ => True
  end.

(** The outcomes of the companies of a list, one after the other: each
    company is processed in the world its predecessors left, and a failure
    is logged before the next company starts. *)
Inductive batch_outcomes :
    list (string * string) -> world DB -> list (exn + list event) -> world DB -> Prop :=
| batch_done (w : world DB) :
    batch_outcomes [] w [] w
| batch_success key value items w stock_df w1 outcomes w2 :
    company_report key value w = (inr stock_df, w1) ->
    batch_outcomes items w1 outcomes w2 ->
    batch_outcomes ((key, value) :: items) w (inr stock_df :: outcomes) w2
| batch_failure key value items w ex w1 outcomes w2 :
    company_report key value w = (inl ex, w1) ->
    batch_outcomes items (logged (LogExn ex) w1) outcomes w2 ->
    batch_outcomes ((key, value) :: items) w (inl ex :: outcomes) w2.

(** The rows a company gives to the report: all of its rows when its
    processing returned, none when it raised. *)
Definition rows_of (outcome : exn + list event) : list event :=
  match outcome with
  | inr stock_df => stock_df
  | inl _ => []
  end.

(** The request [get_stock_prices] sends for a symbol and a key. *)
Definition stock_request (stock key : string) : request :=
  {| url := "https://www.alphavantage.co/query";
     params := stock_params stock key |}.

(** The exceptions handed to [logging.error], in the order of the calls. *)
Definition exceptions_logged (w : world DB) : list exn :=
  omap (fun r => match r with LogExn e => Some e | LogText _ => None end)
    (errors_logged w).

(** The exceptions among the outcomes of a batch. *)
Definition failures (outcomes : list (exn + list event)) : list exn :=
  omap (fun o => match o with inl e => Some e | inr _ => None end) outcomes.

(** What a computation may do to the world while a company is processed:
    send requests to the news service, and hand texts (not exceptions) to
    [logging.error]. *)
Definition news_effects_only (w w' : world DB) : Prop :=
  (exists sent, requests w' = requests w ++ sent
     /\ Forall (fun q => url q = "https://newsapi.org/v2/everything"%string) sent)
  /\ exceptions_logged w' = exceptions_logged w.

(** * Properties

    ** Facts on binary64 arithmetic

    The kernel's floats are specified by [Prim2SF], which reads a float as a
    sign, a mantissa and an exponent, and by one equation per operation. *)















Lemma SFabs_nonneg x : sf_number x -> sf_nonneg (SFabs x).
Proof. by destruct x. Qed.


Lemma leb_zero_nonneg x : (0 <=? x)%float = true <-> sf_nonneg (Prim2SF x).
Proof.
  rewrite FloatAxioms.leb_spec. change (Prim2SF 0) with (S754_zero false).
  destruct (Prim2SF x) as [s|[]| |[] m e]; simpl; split; try done.
Qed.




Lemma SFeqb_refl x : sf_number x -> SFeqb x x = true.
Proof.
  destruct x as [s|[]| |[] m e]; simpl; try done; unfold SFeqb; simpl;
    rewrite ?Z.compare_refl, ?Pos.compare_cont_refl; done.
Qed.

(** [x <= |a - b|] holds only when [a] and [b] are numbers, and then
    [|a - b|] is not negative. *)
Lemma leb_abs_sub x a b :
  (x <=? abs (a - b))%float = true ->
  (a =? a)%float = true /\ (b =? b)%float = true /\ (0 <=? abs (a - b))%float = true.
Proof.
  rewrite leb_zero_nonneg, FloatAxioms.leb_spec, !FloatAxioms.eqb_spec, FloatAxioms.abs_spec, FloatAxioms.sub_spec.
  intros H.
  assert (sf_number (Prim2SF a) /\ sf_number (Prim2SF b)) as [Ha Hb].
  { destruct (Prim2SF a) as [| | |], (Prim2SF b) as [[]|[]| |[]]; simpl in *;
      try done; destruct (Prim2SF x); done. }
  split; [by apply SFeqb_refl|]. split; [by apply SFeqb_refl|].
  apply SFabs_nonneg.
  destruct (SF64sub (Prim2SF a) (Prim2SF b)) eqn:E; try done.
  simpl in H. by destruct (Prim2SF x).
Qed.

Lemma float_mul_comm x y : (x * y)%float = (y * x)%float.
Proof.
  apply Prim2SF_inj. rewrite !FloatAxioms.mul_spec.
  destruct (Prim2SF x) as [[]|[]| |[] mx ex], (Prim2SF y) as [[]|[]| |[] my ey];
    simpl; try done; by rewrite Pos.mul_comm, Z.add_comm.
Qed.

(** ** Facts on the order of labels and on [sort_index] *)

Lemma string_leb_trans s1 s2 s3 :
  String.leb s1 s2 = true -> String.leb s2 s3 = true -> String.leb s1 s3 = true.
Proof.
  unfold String.leb. revert s2 s3.
  induction s1 as [|a s1 IH]; intros [|b s2] [|c s3]; simpl; try done.
  unfold Ascii.compare.
  destruct (N.compare_spec (N_of_ascii a) (N_of_ascii b)) as [Hab|Hab|Hab],
           (N.compare_spec (N_of_ascii b) (N_of_ascii c)) as [Hbc|Hbc|Hbc],
           (N.compare_spec (N_of_ascii a) (N_of_ascii c)) as [Hac|Hac|Hac];
    try done; try lia.
  apply IH.
Qed.

Lemma insert_label_Permutation {V} (x : string * V) s : insert_label x s ≡ₚ x :: s.
Proof.
  induction s as [|y s IH]; simpl; [done|].
  destruct (String.leb _ _); [done|].
  rewrite IH. apply Permutation_swap.
Qed.

Lemma sort_index_Permutation {V} (s : Series V) : sort_index s ≡ₚ s.
Proof.
  induction s as [|x s IH]; simpl; [done|].
  by rewrite insert_label_Permutation, IH.
Qed.

Lemma insert_label_sorted {V} (x : string * V) s :
  StronglySorted label_le s -> StronglySorted label_le (insert_label x s).
Proof.
  induction 1 as [|y s Hs IH Hy]; simpl.
  - repeat constructor.
  - destruct (String.leb x.1 y.1) eqn:E.
    + constructor; [by constructor|]. constructor; [done|].
      eapply Forall_impl; [exact Hy|]. intros z Hz.
      by apply (string_leb_trans _ y.1).
    + constructor; [done|].
      rewrite insert_label_Permutation. constructor; [|done].
      destruct (String.leb_total x.1 y.1) as [H|H]; [congruence|done].
Qed.

Lemma sort_index_sorted {V} (s : Series V) : StronglySorted label_le (sort_index s).
Proof.
  induction s as [|x s IH]; simpl; [constructor|by apply insert_label_sorted].
Qed.

(** ** Facts on dictionaries and on the columns of a frame of records *)

Lemma dict_get_keys {V : Type} (k : string) (d : list (string * V)) :
  existsb (String.eqb k) (map fst d) = bool_decide (is_Some (dict_get k d)).
Proof.
  induction d as [|[k' v] d IH]; simpl; [done|].
  by destruct (String.eqb k k').
Qed.

Lemma existsb_add_keys (k : string) (ks seen : list string) :
  existsb (String.eqb k) (add_keys seen ks)
  = existsb (String.eqb k) seen || existsb (String.eqb k) ks.
Proof.
  revert seen. induction ks as [|k' ks IH]; intros seen; simpl.
  - by rewrite orb_false_r.
  - destruct (existsb (String.eqb k') seen) eqn:E; rewrite IH.
    + destruct (String.eqb k k') eqn:Ek; simpl; [|done].
      apply String.eqb_eq in Ek as ->. by rewrite E.
    + rewrite existsb_app; simpl. by rewrite orb_false_r, orb_assoc.
Qed.

(** A frame of records has a column exactly when some record has the key. *)
Lemma record_columns_has (k : string) (records : list article) :
  existsb (String.eqb k) (record_columns records)
  = existsb (fun a => bool_decide (is_Some (dict_get k a))) records.
Proof.
  unfold record_columns.
  assert (forall seen,
    existsb (String.eqb k)
      (fold_left (fun seen a => add_keys seen (map fst a)) records seen)
    = existsb (String.eqb k) seen
      || existsb (fun a => bool_decide (is_Some (dict_get k a))) records) as H.
  { induction records as [|a records IH]; intros seen; simpl.
    - by rewrite orb_false_r.
    - by rewrite IH, existsb_add_keys, dict_get_keys, orb_assoc. }
  apply H.
Qed.

(** ** Facts on the monad and on the world *)

Ltac run := unfold mbind, M_bind, mret, M_ret, bind, ret, raise, lift, try_except.

(** [process_news] never raises: it returns the first title, or logs and
    returns the literal. *)
Lemma process_news_value (n : news_json) (w : world DB) :
  (exists t, process_news n w = (inr t, w))
  \/ process_news n w = (inr no_articles_found, logged (LogText "No articles found!") w).
Proof.
  unfold process_news. run.
  destruct (articles n) as [records|]; simpl; [|by right].
  destruct (loc records 0 "title") as [e|t] eqn:E; [|left; by eexists].
  unfold loc in E. destruct (records !! 0); [|by inversion E; right].
  destruct (existsb _ _); inversion E. by right.
Qed.

Lemma process_news_total (n : news_json) (w : world DB) :
  exists t w', process_news n w = (inr t, w').
Proof. destruct (process_news_value n w) as [[t H]|H]; eauto. Qed.

(** [get_news], step by step: the key, then the request, then the dump. *)
Lemma get_news_run (company_name from_date key : string) (w : world DB) :
  dict_get "newsapi" api_keys = Some key ->
  get_news company_name from_date w
  = match news_service (requests w) (news_request company_name from_date key) with
    | inl e => (inl e, snd (send news_service (news_request company_name from_date key) w))
    | inr n =>
        (inr n,
         snd (write_file ("news" +:+ "_" +:+ company_name +:+ ".json") (NewsDump n)
                (snd (send news_service (news_request company_name from_date key) w))))
    end.
Proof.
  intros Hk. unfold get_news, conf_get, execute_request. rewrite Hk. run.
  unfold send, news_request. simpl.
  by destruct (news_service _ _).
Qed.

Lemma get_news_requests (company_name from_date key : string) (w : world DB) r w' :
  dict_get "newsapi" api_keys = Some key ->
  get_news company_name from_date w = (r, w') ->
  requests w' = requests w ++ [news_request company_name from_date key].
Proof.
  intros Hk. rewrite (get_news_run _ _ _ _ Hk).
  destruct (news_service _ _); intros [= <- <-]; done.
Qed.

Lemma process_news_requests (n : news_json) (w : world DB) r w' :
  process_news n w = (r, w') -> requests w' = requests w.
Proof.
  destruct (process_news_value n w) as [[t H]|H]; rewrite H; by intros [= <- <-].
Qed.

(** C5.  With the key of the news service configured, the headline of a
    company and a date is fetched by [get_news] then [process_news].  When
    the service answers with an empty list of articles the result is the
    literal ["No articles found!"], not an exception; and whenever the
    fetch raises, the exception is the one the request itself raised. *)
Theorem empty_articles_give_the_literal (company_name from_date key : string)
    (w : world DB) :
  dict_get "newsapi" api_keys = Some key ->
  let headline := (news_response ← get_news company_name from_date;
                   process_news news_response) in
  let answer := news_service (requests w) (news_request company_name from_date key) in
  (forall n, answer = inr n -> articles n = Some [] ->
     fst (headline w) = inr no_articles_found)
  /\ (forall e, fst (headline w) = inl e -> answer = inl e).
Proof.
  intros Hk headline answer. subst headline. run.
  rewrite (get_news_run _ _ _ _ Hk). fold answer.
  destruct answer as [e|n]; simpl; split.
  - intros n [=].
  - by intros e' [= ->].
  - intros n' [= <-] Hn. unfold process_news. run. by rewrite Hn.
  - intros e. match goal with |- context [process_news n ?w1] =>
      destruct (process_news_total n w1) as (t & w2 & ->) end. done.
Qed.

(** C10, for responses without any title.  [process_news] returns the literal when the response
    has no ["articles"] key and when no article of the list has a ["title"]
    key (the empty list included). *)
Theorem no_title_anywhere_gives_the_literal (n : news_json) (w : world DB) :
  match articles n with
  | None => True
  | Some records => Forall (fun a => dict_get "title" a = None) records
  end ->
  process_news n w
  = (inr no_articles_found, logged (LogText "No articles found!") w).
Proof.
  unfold process_news. run.
  destruct (articles n) as [records|]; simpl; [|done].
  intros H. unfold loc. destruct (records !! 0); [|done].
  rewrite record_columns_has.
  replace (existsb _ records) with false; [done|].
  symmetry. apply not_true_is_false. intros Hex.
  apply existsb_exists in Hex as (a' & Hin & Ha').
  apply bool_decide_eq_true in Ha' as [x Hx].
  rewrite Forall_forall in H. apply list_elem_of_In in Hin.
  specialize (H _ Hin). congruence.
Qed.

(** ** The loop over the window *)

Lemma pair_rows_cons (s todo : Series float) d a d' b :
  todo !! 0 = Some (d', b) ->
  pair_rows s ((d, a) :: todo)
  = (if one_percent_change a b then [(label_of s b, round2 (abs (a - b)))] else [])
    ++ pair_rows s todo.
Proof. destruct todo as [|[? ?] todo]; simpl; [done|]. by intros [= -> ->]. Qed.

Lemma first_label_eq_found (s : Series float) d x :
  (d, x) ∈ s -> (x =? x)%float = true -> exists d', first_label_eq s x = inr d'.
Proof.
  intros Hin Hx. induction s as [|[d0 x0] s IH]; [by apply elem_of_nil in Hin|].
  simpl. destruct (x0 =? x)%float eqn:E; [by eexists|].
  apply IH. apply elem_of_cons in Hin as [[= -> ->]|Hin]; [congruence|done].
Qed.

(** The guard of line 86 holds until the last item. *)
Lemma last_index_guard {V : Type} (s pre todo : Series V) (it : string * V) :
  s = pre ++ it :: todo ->
  negb (Z.of_nat (length pre) =? Z.of_nat (length s) - 1)%Z
  = bool_decide (todo <> []).
Proof.
  intros ->. rewrite length_app. simpl. destruct todo as [|it' todo]; simpl.
  - replace (Z.of_nat (length pre + 1) - 1)%Z with (Z.of_nat (length pre)) by lia.
    by rewrite Z.eqb_refl.
  - destruct (Z.eqb_spec (Z.of_nat (length pre))
                (Z.of_nat (length pre + S (S (length todo))) - 1)); [lia|done].
Qed.

Lemma series_getitem_here {V : Type} (s pre todo : Series V) d x :
  s = pre ++ (d, x) :: todo ->
  series_getitem s (length pre) = inr x.
Proof. intros ->. unfold series_getitem. by rewrite list_lookup_middle. Qed.

Lemma series_getitem_next {V : Type} (s pre todo : Series V) it d x :
  s = pre ++ it :: todo ->
  todo !! 0 = Some (d, x) ->
  series_getitem s (length pre + 1) = inr x.
Proof.
  intros -> H. unfold series_getitem.
  rewrite lookup_app_r by lia.
  replace (length pre + 1 - length pre) with 1 by lia. simpl. by rewrite H.
Qed.

(** With the news key configured and a news service that answers, the loop
    returns: it adds one row per passing pair, in the order of the pairs,
    each with the label found for the later price and the rounded change,
    and it sends one news request per row, for the company and that label. *)
Lemma change_loop_rows (company_name key : string) (s : Series float) :
  dict_get "newsapi" api_keys = Some key ->
  (forall h r, exists n, news_service h r = inr n) ->
  forall (todo pre : Series float) (result_df : list event) (w : world DB),
    s = pre ++ todo ->
    exists rows w',
      change_loop company_name s (length pre) todo result_df w
      = (inr (result_df ++ rows), w')
      /\ map (fun e => (Date e, Positive_change e)) rows = pair_rows s todo
      /\ Forall (fun e => Company e = company_name) rows
      /\ requests w'
         = requests w ++ map (fun e => news_request company_name (Date e) key) rows.
Proof.
  intros Hk Hn todo.
  induction todo as [|[d x] todo IH]; intros pre acc w Hs.
  { exists [], w. simpl. by rewrite !app_nil_r. }
  cbn [change_loop]. rewrite (last_index_guard _ _ _ _ Hs).
  specialize (IH (pre ++ [(d, x)])).
  rewrite length_app in IH. simpl in IH.
  assert (s = (pre ++ [(d, x)]) ++ todo) as Hs' by (by rewrite <- app_assoc).
  destruct todo as [|[d' y] todo'] eqn:Htodo.
  { simpl. exists [], w. by rewrite !app_nil_r. }
  rewrite <- Htodo in *. assert (todo !! 0 = Some (d', y)) as Hhd by (by subst todo).
  rewrite bool_decide_eq_true_2 by (by subst todo).
  rewrite (pair_rows_cons s todo d x d' y Hhd).
  run. rewrite (series_getitem_here _ _ _ _ _ Hs).
  rewrite (series_getitem_next _ _ _ _ _ _ Hs Hhd).
  fold (one_percent_change x y).
  destruct (one_percent_change x y) eqn:Hq.
  - destruct (leb_abs_sub _ _ _ Hq) as (_ & Hy & _).
    destruct (first_label_eq_found s d' y) as [dd Hdd]; [|done|].
    { rewrite Hs', elem_of_app. right. subst todo. apply elem_of_cons. by left. }
    unfold label_of. rewrite Hdd.
    destruct (get_news company_name dd w) as [[e|n] w1] eqn:Hg.
    { rewrite (get_news_run _ _ _ _ Hk) in Hg.
      destruct (Hn (requests w) (news_request company_name dd key)) as [n Hsvc].
      rewrite Hsvc in Hg. done. }
    destruct (process_news_total n w1) as (t & w2 & Hp). rewrite Hp.
    unfold print at 1.
    match goal with |- context [change_loop _ _ _ _ (acc ++ [?row]) ?w3] =>
      destruct (IH (acc ++ [row]) w3 Hs') as (rows & w' & Hrun & Hrows & Hco & Hreq);
      exists (row :: rows), w' end.
    rewrite Hrun, <- app_assoc. simpl in *.
    split; [done|]. split; [by rewrite Hrows|]. split; [by constructor|].
    rewrite Hreq, (process_news_requests _ _ _ _ Hp),
      (get_news_requests _ _ _ _ _ _ Hk Hg), <- app_assoc. done.
  - destruct (IH acc w Hs') as (rows & w' & Hrun & Hrows & Hco & Hreq).
    exists rows, w'. by rewrite Hrun.
Qed.

(** ** The report of one company *)

(** From the call of [process_stock_prices] to the loop: the three lookups
    that come first, when they succeed. *)
Lemma process_stock_prices_window (stock_name company_name : string)
    (stock_json series : json) (df : DataFrame) (s : Series float) (w : world DB) :
  getitem stock_json "Time Series (Daily)" = inr series ->
  pd_DataFrame series = inr df ->
  last_3_days_closing df = inr s ->
  process_stock_prices stock_name company_name stock_json w
  = try_except (change_loop company_name s 0 s [])
      (fun e =>
         if is_KeyError e then raise (EmptyResultException "Stock not found!" stock_name)
         else raise e) w.
Proof.
  intros H1 H2 H3. unfold process_stock_prices. run. by rewrite H1, H2, H3.
Qed.

(** C1.  On a window of three prices [p0], [p1], [p2] in date order, with
    the news key configured and a news service that answers, the report of
    the company holds a row for the pair [(p0, p1)] exactly when
    [|p0 - p1| >= 0.01 * p0], and a row for [(p1, p2)] exactly when
    [|p1 - p2| >= 0.01 * p1], in that order; the change of each row is the
    absolute difference rounded to two decimals. *)
Theorem change_event_iff_one_percent (stock_name company_name key : string)
    (stock_json series : json) (df : DataFrame)
    (d0 d1 d2 : string) (p0 p1 p2 : float) (w : world DB) :
  getitem stock_json "Time Series (Daily)" = inr series ->
  pd_DataFrame series = inr df ->
  last_3_days_closing df = inr [(d0, p0); (d1, p1); (d2, p2)] ->
  dict_get "newsapi" api_keys = Some key ->
  (forall h r, exists n, news_service h r = inr n) ->
  exists rows,
    fst (process_stock_prices stock_name company_name stock_json w) = inr rows
    /\ map Positive_change rows
       = (if (0.01 * p0 <=? abs (p0 - p1))%float then [round2 (abs (p0 - p1))] else [])
         ++ (if (0.01 * p1 <=? abs (p1 - p2))%float then [round2 (abs (p1 - p2))] else []).
Proof.
  intros H1 H2 H3 Hk Hn.
  rewrite (process_stock_prices_window _ _ _ _ _ _ _ H1 H2 H3).
  set (s := [(d0, p0); (d1, p1); (d2, p2)]).
  destruct (change_loop_rows company_name key s Hk Hn s [] [] w eq_refl)
    as (rows & w' & Hrun & Hrows & _ & _).
  change (length (@nil (string * float))) with 0 in Hrun.
  unfold try_except. rewrite Hrun. exists rows. split; [done|].
  transitivity (map snd (map (fun e => (Date e, Positive_change e)) rows)).
  { rewrite map_map. done. }
  rewrite Hrows. simpl. unfold one_percent_change.
  rewrite (float_mul_comm 0.01 p0), (float_mul_comm 0.01 p1).
  destruct (p0 * 0.01 <=? abs (p0 - p1))%float, (p1 * 0.01 <=? abs (p1 - p2))%float; done.
Qed.


(** X16.  A frame with fewer than four rows has no row at position 3: the
    [IndexError] of [iloc] is not a [KeyError] and leaves the function as it
    is. *)
Lemma short_frame_raises_IndexError (stock_name company_name : string)
    (stock_json series : json) (df : DataFrame) (w : world DB) :
  getitem stock_json "Time Series (Daily)" = inr series ->
  pd_DataFrame series = inr df ->
  length (index df) < 4 ->
  process_stock_prices stock_name company_name stock_json w = (inl IndexError, w).
Proof.
  intros H1 H2 Hlen. unfold process_stock_prices. run. rewrite H1, H2.
  unfold last_3_days_closing, iloc.
  rewrite (lookup_ge_None_2 (index df) 3) by lia. done.
Qed.

(** ** The window *)

Lemma astype_float_items (s : Series (cell json)) (prices : Series float) :
  astype_float s = inr prices ->
  Forall2 (fun c p => fst p = fst c /\ to_float (snd c) = inr (snd p)) s prices.
Proof.
  revert prices. induction s as [|[d c] s IH]; intros prices; simpl.
  - intros [= <-]. constructor.
  - destruct (to_float c) as [e|x] eqn:Ec; [done|].
    destruct (astype_float s) as [e|r]; [done|].
    intros [= <-]. constructor; [done|]. by apply IH.
Qed.

(** C8.  For a daily series [days] (a [dict] of days) whose frame has a
    row at position 3, labelled [r], the window is made of the cells of row
    [r] in the first three columns (three of them as soon as there are three
    days), each with the label of its column and read as a float; it is then
    sorted by label, and the loop that detects the changes runs on the
    sorted window. *)
Theorem window_is_row_3_of_first_3_columns_sorted (stock_name company_name : string)
    (top days : list (string * json)) (df : DataFrame) (r : string)
    (prices : Series float) (w : world DB) :
  dict_get "Time Series (Daily)" top = Some (JObj days) ->
  pd_DataFrame (JObj days) = inr df ->
  index df !! 3 = Some r ->
  astype_float (map (fun c => (fst c, cell_at (snd c) r)) (take 3 days)) = inr prices ->
  Forall2 (fun c p => fst p = fst c /\ to_float (cell_at (snd c) r) = inr (snd p))
    (take 3 days) prices
  /\ length prices = Nat.min 3 (length days)
  /\ last_3_days_closing df = inr (sort_index prices)
  /\ sort_index prices ≡ₚ prices
  /\ StronglySorted label_le (sort_index prices)
  /\ process_stock_prices stock_name company_name (JObj top) w
     = try_except (change_loop company_name (sort_index prices) 0 (sort_index prices) [])
         (fun e =>
            if is_KeyError e
            then raise (EmptyResultException "Stock not found!" stock_name)
            else raise e) w.
Proof.
  intros Htop Hdf Hr Hp.
  assert (columns df = days) as Hcols.
  { unfold pd_DataFrame in Hdf. destruct (_ || _); by inversion Hdf. }
  assert (last_3_days_closing df = inr (sort_index prices)) as Hwin.
  { unfold last_3_days_closing, iloc. by rewrite Hr, Hcols, Hp. }
  apply astype_float_items in Hp. apply Forall2_fmap_l in Hp.
  split; [done|].
  split; [by rewrite <- (Forall2_length _ _ _ Hp), length_take|].
  split; [done|]. split; [apply sort_index_Permutation|].
  split; [apply sort_index_sorted|].
  apply (process_stock_prices_window _ _ _ (JObj days) df); [|done|done].
  simpl. by rewrite Htop.
Qed.

(** ** Every row holds a rounded absolute difference *)





(** ** The batch *)

Lemma batch_outcomes_length items w outcomes w' :
  batch_outcomes items w outcomes w' -> length outcomes = length items.
Proof. induction 1; simpl; congruence. Qed.

Lemma batch_loop_cons key value items (res_df : list event) (w : world DB) :
  batch_loop ((key, value) :: items) res_df w
  = match company_report key value w with
    | (inr stock_df, w') => batch_loop items (res_df ++ stock_df) w'
    | (inl ex, w') => batch_loop items res_df (logged (LogExn ex) w')
    end.
Proof. done. Qed.

(** C4.  Whatever the companies do, the loop over them returns: every
    company of the list has an outcome, the rows of the report are the rows
    of the companies whose processing returned, in the order of the list,
    and a company whose processing raised (any exception) gives no row. *)
Theorem batch_skips_failing_companies (items : list (string * string))
    (res_df : list event) (w : world DB) :
  exists outcomes w',
    batch_outcomes items w outcomes w'
    /\ batch_loop items res_df w = (res_df ++ concat (map rows_of outcomes), w').
Proof.
  revert res_df w. induction items as [|[key value] items IH]; intros res w.
  { exists [], w. split; [constructor|]. simpl. by rewrite app_nil_r. }
  rewrite batch_loop_cons.
  destruct (company_report key value w) as [[ex|stock_df] w1] eqn:E.
  - destruct (IH res (logged (LogExn ex) w1)) as (os & w' & Hos & Hrun).
    exists (inl ex :: os), w'. split; [by eapply batch_failure|]. by rewrite Hrun.
  - destruct (IH (res ++ stock_df) w1) as (os & w' & Hos & Hrun).
    exists (inr stock_df :: os), w'. split; [by eapply batch_success|].
    rewrite Hrun. simpl. by rewrite app_assoc.
Qed.

(** ** The export and the database block *)

Lemma load_to_db_files (df : list event) (w : world DB) :
  files (snd (load_to_db df w)) = files w.
Proof.
  unfold load_to_db, conf_get, df_to_sql, with_database. run.
  destruct (dict_get _ _); simpl; [|done].
  destruct (to_sql _ _ _) as [[e|] db]; done.
Qed.

Lemma read_from_db_files (name : string) (w : world DB) :
  name <> "out_db_result.csv"%string ->
  files (snd (read_from_db w)) !! name = files w !! name.
Proof.
  intros Hne. unfold read_from_db, conf_get, pd_read_sql, with_database, write_file. run.
  destruct (dict_get _ _); simpl; [|done].
  destruct (read_sql _ _) as [[e|df] db]; simpl; [done|].
  by rewrite lookup_insert_ne.
Qed.

Lemma persistence_block_files (res_df : list event) (w : world DB) :
  files (persistence_block res_df w) !! "out_result.csv"%string
  = files w !! "out_result.csv"%string.
Proof.
  unfold persistence_block. run.
  pose proof (load_to_db_files res_df w) as H1.
  destruct (load_to_db res_df w) as [[e|[]] w1]; simpl in *; [by rewrite H1|].
  pose proof (read_from_db_files "out_result.csv" w1) as H2.
  destruct (read_from_db w1) as [[e|[]] w2]; simpl in *; rewrite H2, ?H1; done.
Qed.

(** C6, as the script does it.  [load_to_db] and [read_from_db] hand the failure of
    the database to their caller.  The block at the end of the script is that
    caller: it logs the exception of whichever step raised first, so a
    failing [load_to_db] leaves [read_from_db] unexecuted; and the file
    [out_result.csv], written before the block, is the same after it. *)
Theorem persistence_failures_reach_the_caller (res_df : list event) (w : world DB) :
  (forall table e db,
     dict_get "table_name" db_conf = Some table ->
     to_sql table res_df (database w) = (Some e, db) ->
     fst (load_to_db res_df w) = inl e)
  /\ (forall table e db,
        dict_get "table_name" db_conf = Some table ->
        read_sql ("SELECT * FROM " +:+ table +:+ " WHERE Company = " +:+ quoted "Oracle")
          (database w) = (inl e, db) ->
        fst (read_from_db w) = inl e)
  /\ (forall e w1,
        load_to_db res_df w = (inl e, w1) ->
        persistence_block res_df w = logged (LogExn e) w1)
  /\ (forall w1 e w2,
        load_to_db res_df w = (inr tt, w1) ->
        read_from_db w1 = (inl e, w2) ->
        persistence_block res_df w = logged (LogExn e) w2)
  /\ files (persistence_block res_df w) !! "out_result.csv"%string
     = files w !! "out_result.csv"%string.
Proof.
  repeat split.
  - intros table e db Ht Hsql.
    unfold load_to_db, conf_get, df_to_sql, with_database. run.
    by rewrite Ht; simpl; rewrite Hsql.
  - intros table e db Ht Hsql.
    unfold read_from_db, conf_get, pd_read_sql, with_database. run.
    by rewrite Ht; simpl; rewrite Hsql.
  - intros e w1 H. unfold persistence_block. run. by rewrite H.
  - intros w1 e w2 H1 H2. unfold persistence_block. run. by rewrite H1, H2.
  - apply persistence_block_files.
Qed.


(** ** How many rows, and which dates *)

Lemma change_loop_length (company_name : string) (s : Series float) :
  forall (todo pre : Series float) (result_df : list event) (w : world DB),
    s = pre ++ todo ->
    on_success (fun rows => length rows <= length result_df + (length todo - 1))
      (fst (change_loop company_name s (length pre) todo result_df w)).
Proof.
  intros todo. induction todo as [|[d x] todo IH]; intros pre acc w Hs.
  { simpl. lia. }
  cbn [change_loop]. rewrite (last_index_guard _ _ _ _ Hs).
  assert (s = (pre ++ [(d, x)]) ++ todo) as Hs' by (by rewrite <- app_assoc).
  specialize (IH (pre ++ [(d, x)])). rewrite length_app in IH. simpl in IH.
  destruct todo as [|it todo'] eqn:Htodo; [simpl; lia|].
  rewrite <- Htodo in *. rewrite bool_decide_eq_true_2 by (by subst todo).
  assert (1 <= length todo) as Hlen by (subst todo; simpl; lia).
  assert (forall acc' w',
    length acc' <= length acc + 1 ->
    on_success (fun rows => length rows <= length acc + (length ((d, x) :: todo) - 1))
      (fst (change_loop company_name s (length pre + 1) todo acc' w'))) as Hnext.
  { intros acc' w' Hacc'. specialize (IH acc' w' Hs').
    destruct (change_loop _ _ _ _ acc' w') as [[e|rows] w'']; simpl in *; [done|lia]. }
  run.
  destruct (series_getitem s (length pre)) as [e|a]; [done|].
  destruct (series_getitem s (length pre + 1)) as [e|b]; [done|].
  destruct (x * 0.01 <=? abs (a - b))%float; [|apply Hnext; lia].
  destruct (first_label_eq s b) as [e|change_date]; [done|].
  destruct (get_news company_name change_date w) as [[e|n] w1]; [done|].
  destruct (process_news n w1) as [[e|t] w2]; [done|].
  unfold print. apply Hnext. rewrite length_app. simpl. lia.
Qed.

Lemma sort_index_length {V : Type} (s : Series V) : length (sort_index s) = length s.
Proof. apply Permutation_length, sort_index_Permutation. Qed.

Lemma last_3_days_closing_length (df : DataFrame) (s : Series float) :
  last_3_days_closing df = inr s -> length s <= 3.
Proof.
  unfold last_3_days_closing, iloc.
  destruct (index df !! 3); [|done].
  destruct (astype_float _) as [e|prices] eqn:E; [done|].
  intros [= <-]. rewrite sort_index_length.
  apply astype_float_items, Forall2_length in E.
  rewrite <- E, length_map, length_take. lia.
Qed.

(** X1.  A company gives at most two rows, whatever its payload and whatever
    the news service does. *)
Lemma at_most_two_rows (stock_name company_name : string) (stock_json : json)
    (w : world DB) :
  on_success (fun rows => length rows <= 2)
    (fst (process_stock_prices stock_name company_name stock_json w)).
Proof.
  unfold process_stock_prices. run.
  destruct (getitem _ _) as [e|series]; [by destruct e|].
  destruct (pd_DataFrame series) as [e|df]; [by destruct e|].
  destruct (last_3_days_closing df) as [e|s] eqn:Hs; [by destruct e|].
  apply last_3_days_closing_length in Hs.
  pose proof (change_loop_length company_name s s [] [] w eq_refl) as H.
  change (length (@nil (string * float))) with 0 in H.
  destruct (change_loop company_name s 0 s [] w) as [[e|rows] w']; [by destruct e|].
  simpl in *. lia.
Qed.

(** On a window of three prices with the news key configured and a news
    service that answers: each row is dated with the label found for the
    later price of its pair, and the news request of the row is sent for the
    company and that same date.  When no price of the window equals a later
    one, the label found is the date of the later price. *)
Lemma change_dates_on_three_prices (stock_name company_name key : string)
    (stock_json series : json) (df : DataFrame)
    (d0 d1 d2 : string) (p0 p1 p2 : float) (w : world DB) :
  getitem stock_json "Time Series (Daily)" = inr series ->
  pd_DataFrame series = inr df ->
  last_3_days_closing df = inr [(d0, p0); (d1, p1); (d2, p2)] ->
  dict_get "newsapi" api_keys = Some key ->
  (forall h r, exists n, news_service h r = inr n) ->
  exists rows w',
    process_stock_prices stock_name company_name stock_json w = (inr rows, w')
    /\ requests w'
       = requests w ++ map (fun e => news_request company_name (Date e) key) rows
    /\ ((p0 =? p1)%float = false -> (p0 =? p2)%float = false ->
        (p1 =? p2)%float = false ->
        map Date rows
        = (if one_percent_change p0 p1 then [d1] else [])
          ++ (if one_percent_change p1 p2 then [d2] else [])).
Proof.
  intros H1 H2 H3 Hk Hn.
  rewrite (process_stock_prices_window _ _ _ _ _ _ _ H1 H2 H3).
  set (s := [(d0, p0); (d1, p1); (d2, p2)]).
  destruct (change_loop_rows company_name key s Hk Hn s [] [] w eq_refl)
    as (rows & w' & Hrun & Hrows & _ & Hreq).
  change (length (@nil (string * float))) with 0 in Hrun.
  unfold try_except. rewrite Hrun. exists rows, w'. split; [done|]. split; [done|].
  intros E01 E02 E12.
  transitivity (map fst (map (fun e => (Date e, Positive_change e)) rows)).
  { by rewrite map_map. }
  rewrite Hrows. simpl. unfold label_of. simpl. rewrite E01, E02, E12.
  destruct (one_percent_change p0 p1) eqn:Q0, (one_percent_change p1 p2) eqn:Q1; simpl;
    try done;
    repeat match goal with
    | H : one_percent_change _ _ = true |- _ =>
        apply leb_abs_sub in H as (_ & -> & _)
    end; done.
Qed.

(** ** Further properties of the report of one company *)

(** X2.  On a window of three prices no two of which are equal, with the
    news key configured and a news service that answers, each row is dated
    with the day of the later price of its pair, and the news requests sent
    are those of the rows, for the company and the date of the row. *)
Theorem rows_are_dated_with_the_later_day (stock_name company_name key : string)
    (stock_json series : json) (df : DataFrame)
    (d0 d1 d2 : string) (p0 p1 p2 : float) (w : world DB) :
  getitem stock_json "Time Series (Daily)" = inr series ->
  pd_DataFrame series = inr df ->
  last_3_days_closing df = inr [(d0, p0); (d1, p1); (d2, p2)] ->
  dict_get "newsapi" api_keys = Some key ->
  (forall h r, exists n, news_service h r = inr n) ->
  (p0 =? p1)%float = false ->
  (p0 =? p2)%float = false ->
  (p1 =? p2)%float = false ->
  exists rows w',
    process_stock_prices stock_name company_name stock_json w = (inr rows, w')
    /\ map Date rows
       = (if one_percent_change p0 p1 then [d1] else [])
         ++ (if one_percent_change p1 p2 then [d2] else [])
    /\ requests w'
       = requests w ++ map (fun e => news_request company_name (Date e) key) rows.
Proof.
  intros H1 H2 H3 Hk Hn E01 E02 E12.
  destruct (change_dates_on_three_prices stock_name company_name key stock_json
              series df d0 d1 d2 p0 p1 p2 w H1 H2 H3 Hk Hn)
    as (rows & w' & Hrun & Hreq & Hdates).
  exists rows, w'. split; [done|]. split; [by apply Hdates|done].
Qed.

(** X3.  The request for the headline is made inside the [try] of
    [process_stock_prices]: when the first pair of the window passes the
    test and [ApiKeys.api_keys] has no ["newsapi"] entry, the [KeyError] of
    that lookup comes out as [EmptyResultException] with the message
    ["Stock not found!"], no request having been sent. *)
Theorem missing_news_key_is_reported_as_stock_not_found
    (stock_name company_name : string) (stock_json series : json) (df : DataFrame)
    (d0 d1 : string) (p0 p1 : float) (later : Series float) (w : world DB) :
  getitem stock_json "Time Series (Daily)" = inr series ->
  pd_DataFrame series = inr df ->
  last_3_days_closing df = inr ((d0, p0) :: (d1, p1) :: later) ->
  one_percent_change p0 p1 = true ->
  dict_get "newsapi" api_keys = None ->
  process_stock_prices stock_name company_name stock_json w
  = (inl (EmptyResultException "Stock not found!" stock_name), w).
Proof.
  intros H1 H2 H3 Hq Hk.
  rewrite (process_stock_prices_window _ _ _ _ _ _ _ H1 H2 H3).
  set (s := (d0, p0) :: (d1, p1) :: later).
  assert (s = [] ++ (d0, p0) :: (d1, p1) :: later) as Hs by done.
  unfold try_except.
  replace (change_loop company_name s 0 s [] w) with (@inl exn (list event) KeyError, w);
    [done|].
  symmetry. change 0 with (length (@nil (string * float))) at 1.
  unfold s at 2. cbn [change_loop].
  rewrite (last_index_guard _ _ _ _ Hs), bool_decide_eq_true_2 by done.
  run. rewrite (series_getitem_here _ _ _ _ _ Hs).
  rewrite (series_getitem_next _ _ _ _ d1 p1 Hs) by done.
  fold (one_percent_change p0 p1). rewrite Hq.
  destruct (leb_abs_sub _ _ _ Hq) as (_ & Hp1 & _).
  destruct (first_label_eq_found s d1 p1) as [dd Hdd]; [|done|].
  { subst s. apply elem_of_cons. right. apply elem_of_cons. by left. }
  rewrite Hdd. unfold get_news, conf_get. rewrite Hk. done.
Qed.

(** X4.  A day without a value on the row of the window has the
    missing-value marker there, which [astype(float)] reads as NaN.  With
    NaN in the middle of a window of three, neither pair passes the test:
    the function returns no row, sends no request and logs nothing. *)
Theorem missing_close_gives_no_row (stock_name company_name : string)
    (stock_json series : json) (df : DataFrame)
    (d0 d1 d2 : string) (p0 p2 : float) (w : world DB) :
  getitem stock_json "Time Series (Daily)" = inr series ->
  pd_DataFrame series = inr df ->
  last_3_days_closing df = inr [(d0, p0); (d1, nan); (d2, p2)] ->
  process_stock_prices stock_name company_name stock_json w = (inr [], w).
Proof.
  intros H1 H2 H3.
  rewrite (process_stock_prices_window _ _ _ _ _ _ _ H1 H2 H3).
  assert (forall x a b, (a =? a)%float = false \/ (b =? b)%float = false ->
            (x <=? abs (a - b))%float = false) as Hnan.
  { intros x a b Hab. destruct (x <=? abs (a - b))%float eqn:E; [|done].
    destruct (leb_abs_sub _ _ _ E) as (Ha & Hb & _). destruct Hab; congruence. }
  unfold try_except. cbn. run.
  rewrite (Hnan _ p0 nan) by (by right). rewrite (Hnan _ nan p2) by (by left). done.
Qed.

Lemma astype_float_error (s : Series (cell json)) (e : exn) :
  astype_float s = inl e -> e = ValueError \/ e = TypeError.
Proof.
  induction s as [|[d c] s IH]; simpl; [done|].
  destruct (to_float c) as [e'|x] eqn:Ec.
  - intros [= <-]. unfold to_float in Ec.
    destruct c as [[t|fields]|]; [|by inversion Ec; right|done].
    destruct (float_of_str t); inversion Ec. by left.
  - destruct (astype_float s) as [e'|r]; [|done]. intros [= <-]. by apply IH.
Qed.

(** X5.  When a cell of the window cannot be read as a float (text that
    [float] refuses, or a nested object), [process_stock_prices] raises the
    [ValueError] or [TypeError] of the conversion as it is, not the
    empty-result exception, and has touched nothing. *)
Theorem unreadable_close_raises_the_conversion_error (stock_name company_name : string)
    (stock_json series : json) (df : DataFrame) (row : Series (cell json))
    (e : exn) (w : world DB) :
  getitem stock_json "Time Series (Daily)" = inr series ->
  pd_DataFrame series = inr df ->
  iloc df 3 3 = inr row ->
  astype_float row = inl e ->
  process_stock_prices stock_name company_name stock_json w = (inl e, w)
  /\ (e = ValueError \/ e = TypeError).
Proof.
  intros H1 H2 H3 H4. pose proof (astype_float_error _ _ H4) as He.
  split; [|done]. unfold process_stock_prices. run. rewrite H1, H2.
  unfold last_3_days_closing. rewrite H3, H4. by destruct He as [-> | ->].
Qed.

(** ** Further properties of the news and of the requests *)

(** X6.  When the first article of the list has a title, [process_news]
    returns that title, whatever the other articles are, and logs nothing. *)
Theorem first_title_is_returned (n : news_json) (a : article) (others : list article)
    (t : field) (w : world DB) :
  articles n = Some (a :: others) ->
  dict_get "title" a = Some t ->
  process_news n w = (inr (Some t), w).
Proof.
  intros Hn Ht. unfold process_news. run. rewrite Hn.
  unfold loc. change ((a :: others) !! 0) with (Some a).
  rewrite record_columns_has. simpl. by rewrite Ht.
Qed.


(** ** Further properties of the batch *)

Lemma news_effects_only_refl (w : world DB) : news_effects_only w w.
Proof. split; [|done]. exists []. by rewrite app_nil_r. Qed.

Lemma news_effects_only_trans (w1 w2 w3 : world DB) :
  news_effects_only w1 w2 -> news_effects_only w2 w3 -> news_effects_only w1 w3.
Proof.
  intros [(s1 & H1 & F1) L1] [(s2 & H2 & F2) L2]. split; [|congruence].
  exists (s1 ++ s2). rewrite H2, H1, app_assoc. split; [done|]. by apply Forall_app.
Qed.

Lemma get_news_effects (company_name from_date : string) (w : world DB) :
  news_effects_only w (snd (get_news company_name from_date w)).
Proof.
  destruct (dict_get "newsapi" api_keys) as [key|] eqn:Hk.
  - rewrite (get_news_run _ _ _ _ Hk).
    destruct (news_service _ _); (split; [|done]);
      exists [news_request company_name from_date key]; split; try done;
      by repeat constructor.
  - unfold get_news, conf_get. rewrite Hk. apply news_effects_only_refl.
Qed.

Lemma process_news_effects (n : news_json) (w : world DB) :
  news_effects_only w (snd (process_news n w)).
Proof.
  destruct (process_news_value n w) as [[t H]|H]; rewrite H.
  - apply news_effects_only_refl.
  - split; [exists []; by rewrite app_nil_r|].
    unfold exceptions_logged, logged. simpl. rewrite omap_app. simpl.
    by rewrite app_nil_r.
Qed.

(** The loop only adds rows of its company, and only has news effects. *)
Lemma change_loop_effects (company_name : string) (s todo : Series float) :
  forall (index : nat) (result_df : list event) (w : world DB),
    news_effects_only w (snd (change_loop company_name s index todo result_df w))
    /\ on_success
         (fun rows => exists new, rows = result_df ++ new
                        /\ Forall (fun e => Company e = company_name) new)
         (fst (change_loop company_name s index todo result_df w)).
Proof.
  induction todo as [|[d x] todo IH]; intros i acc w; cbn [change_loop].
  { split; [apply news_effects_only_refl|]. exists []. by rewrite app_nil_r. }
  destruct (negb _); [|by apply IH]. run.
  destruct (series_getitem s i) as [e|a];
    [split; [apply news_effects_only_refl|done]|].
  destruct (series_getitem s (i + 1)) as [e|b];
    [split; [apply news_effects_only_refl|done]|].
  destruct (x * 0.01 <=? abs (a - b))%float; [|by apply IH].
  destruct (first_label_eq s b) as [e|change_date];
    [split; [apply news_effects_only_refl|done]|].
  pose proof (get_news_effects company_name change_date w) as Hg.
  destruct (get_news company_name change_date w) as [[e|n] w1]; [done|].
  pose proof (process_news_effects n w1) as Hp.
  destruct (process_news n w1) as [[e|t] w2];
    [split; [by eapply news_effects_only_trans|done]|].
  simpl in Hg, Hp. unfold print.
  match goal with |- context [change_loop _ _ _ _ (acc ++ [?row]) ?w3] =>
    destruct (IH (i + 1) (acc ++ [row]) w3) as [Hw Hr];
    destruct (change_loop company_name s (i + 1) todo (acc ++ [row]) w3)
      as [[e|rows] w'] end; simpl in *.
  - split; [|done].
    eapply news_effects_only_trans; [exact Hg|].
    eapply news_effects_only_trans; [exact Hp|]. exact Hw.
  - split.
    + eapply news_effects_only_trans; [exact Hg|].
      eapply news_effects_only_trans; [exact Hp|]. exact Hw.
    + destruct Hr as (new & -> & Hnew). eexists (_ :: new).
      rewrite <- app_assoc. split; [done|]. by constructor.
Qed.

Lemma process_stock_prices_effects (stock_name company_name : string)
    (stock_json : json) (w : world DB) :
  news_effects_only w (snd (process_stock_prices stock_name company_name stock_json w))
  /\ on_success (Forall (fun e => Company e = company_name))
       (fst (process_stock_prices stock_name company_name stock_json w)).
Proof.
  unfold process_stock_prices. run.
  destruct (getitem _ _) as [e|series];
    [destruct e; split; try done; apply news_effects_only_refl|].
  destruct (pd_DataFrame series) as [e|df];
    [destruct e; split; try done; apply news_effects_only_refl|].
  destruct (last_3_days_closing df) as [e|s];
    [destruct e; split; try done; apply news_effects_only_refl|].
  destruct (change_loop_effects company_name s s 0 [] w) as [Hw Hr].
  destruct (change_loop company_name s 0 s [] w) as [[e|rows] w']; simpl in *.
  - by destruct e.
  - split; [done|]. by destruct Hr as (new & -> & Hnew).
Qed.

(** [get_stock_prices], step by step, when the key is configured. *)
Lemma get_stock_prices_run (stock key : string) (w : world DB) :
  dict_get "alphavantage" api_keys = Some key ->
  get_stock_prices stock w
  = match stock_service (requests w) (stock_request stock key) with
    | inl e => (inl e, snd (send stock_service (stock_request stock key) w))
    | inr j =>
        (inr j,
         snd (write_file ("stock" +:+ "_" +:+ stock +:+ ".json") (StockDump j)
                (snd (send stock_service (stock_request stock key) w))))
    end.
Proof.
  intros Hk. unfold get_stock_prices, conf_get, execute_request. rewrite Hk. run.
  unfold send, stock_request. simpl.
  by destruct (stock_service _ _).
Qed.

(** One company: one request to the market-data service, then news effects
    only, and rows of that company only. *)
Lemma company_report_effects (key value api_key : string) (w : world DB) :
  dict_get "alphavantage" api_keys = Some api_key ->
  (exists w1,
     requests w1 = requests w ++ [stock_request key api_key]
     /\ exceptions_logged w1 = exceptions_logged w
     /\ news_effects_only w1 (snd (company_report key value w)))
  /\ on_success (Forall (fun e => Company e = value))
       (fst (company_report key value w)).
Proof.
  intros Hk. unfold company_report. run. rewrite (get_stock_prices_run _ _ _ Hk).
  destruct (stock_service _ _) as [e|j]; simpl.
  - split; [|done]. exists (snd (send stock_service (stock_request key api_key) w)).
    split; [done|]. split; [done|]. apply news_effects_only_refl.
  - match goal with |- context [process_stock_prices key value j ?w1] =>
      destruct (process_stock_prices_effects key value j w1) as [Hw Hr];
      split; [exists w1|done] end.
    done.
Qed.

Lemma rows_without_key (key value : string) (w : world DB) :
  on_success (Forall (fun e => Company e = value)) (fst (company_report key value w)).
Proof.
  unfold company_report. run.
  destruct (get_stock_prices key w) as [[e|j] w1]; [done|].
  apply process_stock_prices_effects.
Qed.

Lemma news_requests_are_not_stock_requests (sent : list request) :
  Forall (fun q => url q = "https://newsapi.org/v2/everything"%string) sent ->
  filter (fun q => url q = "https://www.alphavantage.co/query"%string) sent = [].
Proof.
  induction 1 as [|q sent Hq _ IH]; [done|].
  rewrite filter_cons_False; [done|]. by rewrite Hq.
Qed.

(** X8.  With the market-data key configured, the batch asks the
    market-data service once for every company of the list, in the order of
    the list, whether the companies before it failed or not. *)
Theorem one_stock_request_per_company (items : list (string * string))
    (res_df : list event) (w : world DB) (api_key : string) :
  dict_get "alphavantage" api_keys = Some api_key ->
  filter (fun q => url q = "https://www.alphavantage.co/query"%string)
    (requests (snd (batch_loop items res_df w)))
  = filter (fun q => url q = "https://www.alphavantage.co/query"%string) (requests w)
    ++ map (fun it => stock_request (fst it) api_key) items.
Proof.
  intros Hk. revert res_df w.
  induction items as [|[key value] items IH]; intros res w.
  { simpl. by rewrite app_nil_r. }
  rewrite batch_loop_cons.
  destruct (company_report_effects key value api_key w Hk)
    as [(w1 & Hreq & _ & (sent & Hsent & Hnews) & _) _].
  assert (filter (fun q => url q = "https://www.alphavantage.co/query"%string)
            (requests (snd (company_report key value w)))
          = filter (fun q => url q = "https://www.alphavantage.co/query"%string)
              (requests w) ++ [stock_request key api_key]) as Hone.
  { by rewrite Hsent, Hreq, !filter_app, (news_requests_are_not_stock_requests _ Hnews),
      app_nil_r. }
  destruct (company_report key value w) as [[ex|stock_df] w'];
    rewrite IH; simpl in *; rewrite Hone, <- app_assoc; done.
Qed.

(** X9.  Every row of the report carries the display name of a company of
    the list. *)
Theorem report_rows_name_listed_companies (items : list (string * string))
    (w : world DB) :
  Forall (fun e => Company e ∈ map snd items) (fst (batch_loop items [] w)).
Proof.
  assert (forall (names : list string) res w',
    (forall it, it ∈ items -> snd it ∈ names) ->
    Forall (fun e => Company e ∈ names) res ->
    Forall (fun e => Company e ∈ names) (fst (batch_loop items res w'))) as H.
  { intros names. induction items as [|[key value] items IH]; intros res w' Hin Hres.
    { done. }
    rewrite batch_loop_cons.
    assert (forall it, it ∈ items -> snd it ∈ names) as Hin'.
    { intros it Hit. apply Hin. by apply elem_of_cons; right. }
    pose proof (rows_without_key key value w') as Hrows.
    destruct (company_report key value w') as [[ex|stock_df] w1]; simpl in Hrows.
    - by apply IH.
    - apply IH; [done|]. apply Forall_app. split; [done|].
      eapply Forall_impl; [exact Hrows|]. intros e ->.
      apply (Hin (key, value)). by apply elem_of_cons; left. }
  apply H; [|done]. intros it Hit. by apply list_elem_of_fmap_2.
Qed.

Lemma company_report_logs_no_exception (key value : string) (w : world DB) :
  exceptions_logged (snd (company_report key value w)) = exceptions_logged w.
Proof.
  unfold company_report. run.
  assert (exceptions_logged (snd (get_stock_prices key w)) = exceptions_logged w) as Hg.
  { unfold get_stock_prices, conf_get, execute_request. run.
    destruct (dict_get _ _); [|done]. unfold send. simpl.
    by destruct (stock_service _ _). }
  destruct (get_stock_prices key w) as [[e|j] w1]; [done|]. simpl in Hg.
  destruct (process_stock_prices_effects key value j w1) as [[_ Hl] _]. congruence.
Qed.

(** X11.  The exceptions handed to [logging.error] during a batch are
    those of the companies whose processing raised, one each, in the order
    of the list. *)
Theorem failures_are_logged_in_order (items : list (string * string))
    (w w' : world DB) (outcomes : list (exn + list event)) :
  batch_outcomes items w outcomes w' ->
  exceptions_logged w' = exceptions_logged w ++ failures outcomes.
Proof.
  induction 1 as [w|key value items w stock_df w1 outcomes w2 Hrun _ IH
                   |key value items w ex w1 outcomes w2 Hrun _ IH]; simpl.
  - by rewrite app_nil_r.
  - pose proof (company_report_logs_no_exception key value w) as Hl.
    rewrite Hrun in Hl. simpl in Hl. by rewrite IH, Hl.
  - pose proof (company_report_logs_no_exception key value w) as Hl.
    rewrite Hrun in Hl. simpl in Hl. rewrite IH. unfold failures. simpl.
    unfold exceptions_logged, logged. simpl. rewrite omap_app. simpl.
    fold (exceptions_logged w1). by rewrite Hl, <- app_assoc.
Qed.

(** ** Further properties of the frame and of the window *)

Lemma existsb_eqb_elem_of (k : string) (l : list string) :
  existsb (String.eqb k) l = true <-> k ∈ l.
Proof.
  rewrite existsb_exists. split.
  - intros (k' & Hin & Heq). apply String.eqb_eq in Heq as ->.
    by apply list_elem_of_In.
  - intros Hin. exists k. split; [by apply list_elem_of_In|apply String.eqb_refl].
Qed.

Lemma add_keys_fresh (ks seen : list string) :
  NoDup (seen ++ ks) -> add_keys seen ks = seen ++ ks.
Proof.
  revert seen. induction ks as [|k ks IH]; intros seen Hnd; simpl.
  { by rewrite app_nil_r. }
  destruct (existsb (String.eqb k) seen) eqn:E.
  - apply existsb_eqb_elem_of in E. apply NoDup_app in Hnd as (_ & Hdis & _).
    exfalso. apply (Hdis k E). by left.
  - rewrite IH; rewrite <- app_assoc; done.
Qed.

Lemma add_keys_seen (ks seen : list string) :
  (forall k, k ∈ ks -> k ∈ seen) -> add_keys seen ks = seen.
Proof.
  induction ks as [|k ks IH]; intros Hin; simpl; [done|].
  replace (existsb (String.eqb k) seen) with true.
  - apply IH. intros k' Hk'. apply Hin. by right.
  - symmetry. apply existsb_eqb_elem_of, Hin. by left.
Qed.

(** X10.  When every day of the series is an object with the same fields
    in the same order, the rows of the frame are those fields, and
    [df.iloc[3, :3]] is made of the fourth field of the first three days:
    with the provider's fields (open, high, low, close, volume), the
    closes. *)
Theorem row_3_is_the_fourth_field (days : list (string * json))
    (fields : list string) (r : string) :
  days <> [] ->
  NoDup fields ->
  Forall (fun c => exists record, snd c = JObj record /\ map fst record = fields) days ->
  fields !! 3 = Some r ->
  exists df,
    pd_DataFrame (JObj days) = inr df
    /\ index df = fields
    /\ iloc df 3 3 = inr (map (fun c => (fst c, cell_at (snd c) r)) (take 3 days)).
Proof.
  intros Hne Hnd Hdays Hr.
  assert (forall l : list (string * json),
            Forall (fun c => exists record,
                      snd c = JObj record /\ map fst record = fields) l ->
            fold_left (fun seen c => add_keys seen (keys_of (snd c))) l fields = fields)
    as Hkeep.
  { induction 1 as [|c l (record & Hc & Hf) _ IH]; simpl; [done|].
    rewrite Hc. simpl. rewrite Hf, add_keys_seen; done. }
  destruct days as [|c days]; [done|].
  apply Forall_cons in Hdays as [(record & Hc & Hf) Hdays].
  exists {| index := fields; columns := c :: days |}.
  assert (pd_DataFrame (JObj (c :: days))
          = inr {| index := fields; columns := c :: days |}) as Hdf.
  { unfold pd_DataFrame, union_indexes. simpl. rewrite Hc. simpl.
    rewrite Hf, (add_keys_fresh fields []) by done. simpl. by rewrite (Hkeep _ Hdays). }
  split; [done|]. split; [done|]. unfold iloc. simpl. by rewrite Hr.
Qed.

Lemma NoDup_labels_elem_of {V : Type} (s : Series V) (d : string) (v1 v2 : V) :
  NoDup (map fst s) -> (d, v1) ∈ s -> (d, v2) ∈ s -> v1 = v2.
Proof.
  induction s as [|[d' v] s IH]; intros Hnd H1 H2; [by apply elem_of_nil in H1|].
  simpl in Hnd. apply NoDup_cons in Hnd as [Hd' Hnd].
  apply elem_of_cons in H1 as [E1|H1]; apply elem_of_cons in H2 as [E2|H2].
  - congruence.
  - exfalso. apply Hd'. inversion E1; subst.
    by apply (list_elem_of_fmap_2 fst s (d', v2)).
  - exfalso. apply Hd'. inversion E2; subst.
    by apply (list_elem_of_fmap_2 fst s (d', v1)).
  - by apply IH.
Qed.

(** X12.  [sort_index] gives the same series for two arrangements of the
    same labelled items (labels being unique, as the keys of a [dict] are):
    the window does not depend on the order in which the days come. *)
Theorem sort_index_ignores_the_order_of_the_days {V : Type} (s1 s2 : Series V) :
  s1 ≡ₚ s2 ->
  NoDup (map fst s1) ->
  sort_index s1 = sort_index s2.
Proof.
  intros Hp Hnd.
  apply (StronglySorted_unique_strong label_le);
    [|apply sort_index_sorted|apply sort_index_sorted|].
  - intros [d1 v1] [d2 v2] H1 H2 H12 H21. unfold label_le in *. simpl in *.
    assert (d1 = d2) as -> by (by apply String.leb_antisym).
    rewrite sort_index_Permutation in H1, H2. rewrite <- Hp in H2.
    f_equal. by eapply NoDup_labels_elem_of.
  - by rewrite !sort_index_Permutation.
Qed.

(** ** What is printed *)

Lemma get_news_printed (company_name from_date : string) (w : world DB) :
  printed (snd (get_news company_name from_date w)) = printed w.
Proof.
  unfold get_news, conf_get, execute_request. run.
  destruct (dict_get _ _); [|done]. unfold send. simpl.
  by destruct (news_service _ _).
Qed.

Lemma process_news_printed (n : news_json) (w : world DB) :
  printed (snd (process_news n w)) = printed w.
Proof. destruct (process_news_value n w) as [[t H]|H]; by rewrite H. Qed.

Lemma change_loop_printed (company_name : string) (s todo : Series float)
    (before : list event) :
  forall (index : nat) (result_df : list event) (w : world DB),
    printed w = before ++ result_df ->
    on_success (fun rows =>
        printed (snd (change_loop company_name s index todo result_df w))
        = before ++ rows)
      (fst (change_loop company_name s index todo result_df w)).
Proof.
  induction todo as [|[d x] todo IH]; intros i acc w Hw; cbn [change_loop].
  { done. }
  destruct (negb _); [|by apply IH]. run.
  destruct (series_getitem s i) as [e|a]; [done|].
  destruct (series_getitem s (i + 1)) as [e|b]; [done|].
  destruct (x * 0.01 <=? abs (a - b))%float; [|by apply IH].
  destruct (first_label_eq s b) as [e|change_date]; [done|].
  pose proof (get_news_printed company_name change_date w) as Hg.
  destruct (get_news company_name change_date w) as [[e|n] w1]; [done|].
  pose proof (process_news_printed n w1) as Hp.
  destruct (process_news n w1) as [[e|t] w2]; [done|].
  simpl in Hg, Hp. unfold print. apply IH. simpl.
  by rewrite Hp, Hg, Hw, app_assoc.
Qed.

(** X13.  When [process_stock_prices] returns, the rows it has printed
    are the rows it returns, in the same order. *)
Theorem printed_rows_are_the_returned_rows (stock_name company_name : string)
    (stock_json : json) (w : world DB) :
  on_success (fun rows =>
      printed (snd (process_stock_prices stock_name company_name stock_json w))
      = printed w ++ rows)
    (fst (process_stock_prices stock_name company_name stock_json w)).
Proof.
  unfold process_stock_prices. run.
  destruct (getitem _ _) as [e|series]; [by destruct e|].
  destruct (pd_DataFrame series) as [e|df]; [by destruct e|].
  destruct (last_3_days_closing df) as [e|s]; [by destruct e|].
  pose proof (change_loop_printed company_name s s (printed w) 0 [] w) as H.
  rewrite app_nil_r in H. specialize (H eq_refl).
  destruct (change_loop company_name s 0 s [] w) as [[e|rows] w']; [by destruct e|done].
Qed.

(** ** Further properties of the database block *)

(** X14.  When both steps succeed, [read_from_db] queries the database
    as [load_to_db] left it, the rows it reads are written to
    [out_db_result.csv], and nothing is logged. *)
Theorem verify_reads_what_persist_left (res_df rows : list event) (w : world DB)
    (table : string) (db1 db2 : DB) :
  dict_get "table_name" db_conf = Some table ->
  to_sql table res_df (database w) = (None, db1) ->
  read_sql ("SELECT * FROM " +:+ table +:+ " WHERE Company = " +:+ quoted "Oracle") db1
  = (inr rows, db2) ->
  let w' := persistence_block res_df w in
  database w' = db2
  /\ files w' = <["out_db_result.csv"%string := Csv rows]> (files w)
  /\ errors_logged w' = errors_logged w
  /\ requests w' = requests w.
Proof.
  intros Ht Hw Hr. unfold persistence_block, load_to_db, read_from_db, conf_get,
    df_to_sql, pd_read_sql, with_database, write_file. run.
  rewrite Ht. simpl. rewrite Hw. simpl. rewrite Hr. done.
Qed.

(** X15.  Without a ["table_name"] entry in [DbConf.db_conf] the
    database block reaches neither the database nor the file of the
    verification: the [KeyError] of the lookup is logged and that is all. *)
Theorem missing_table_name_is_logged (res_df : list event) (w : world DB) :
  dict_get "table_name" db_conf = None ->
  persistence_block res_df w = logged (LogExn KeyError) w.
Proof.
  intros Ht. unfold persistence_block, load_to_db, conf_get. run. by rewrite Ht.
Qed.

End Program.

(** * The program on the sample payloads *)

Local Abbreviation sample_prices stock_json :=
  (process_stock_prices Sample.float_of_decimal Sample.api_keys
     (Sample.news_answers Sample.headline) (list event)
     "IBM" "Ibm" stock_json Sample.start).

Local Abbreviation sample_window stock_json :=
  (match getitem stock_json "Time Series (Daily)" with
   | inr series =>
       match pd_DataFrame series with
       | inr df => last_3_days_closing Sample.float_of_decimal df
       | inl e => inl e
       end
   | inl e => inl e
   end).

(** Closes of 100, 102 and 101.5 on three days in a row.  The first pair
    passes the test, the second does not. *)
Lemma change_event_iff_one_percent_witness :
  exists rows,
    fst (sample_prices (Sample.daily "101.5" "102.0" "100.0" "99.0")) = inr rows
    /\ map Positive_change rows
       = (if (0.01 * 100 <=? abs (100 - 102))%float
          then [round2 (abs (100 - 102))] else [])
         ++ (if (0.01 * 102 <=? abs (102 - 101.5))%float
             then [round2 (abs (102 - 101.5))] else []).
Proof.
  eapply (change_event_iff_one_percent Sample.float_of_decimal Sample.api_keys
            (Sample.news_answers Sample.headline) (list event) "IBM" "Ibm" "key-n"
            (Sample.daily "101.5" "102.0" "100.0" "99.0") _ _
            "2023-01-03" "2023-01-04" "2023-01-05" 100 102 101.5 Sample.start).
  - reflexivity.
  - reflexivity.
  - vm_compute. reflexivity.
  - reflexivity.
  - intros h r. exists Sample.headline. reflexivity.
Defined.

Example one_row_for_100_102 :
  fst (sample_prices (Sample.daily "101.5" "102.0" "100.0" "99.0"))
  = inr [{| Company := "Ibm"; Date := "2023-01-04"; Positive_change := 2;
            Title_of_most_recent_article := Some (FStr "Shares move") |}].
Proof. vm_compute. reflexivity. Qed.

(** C2, on a window whose first and last prices are equal: 100, 102, 100.
    Both pairs pass the test.  The row of the second pair is dated with the
    first day of the window, where the price 100 is found first, and not
    with the third day; the news request is sent for that first day. *)
Theorem repeated_price_is_dated_at_its_first_day :
  sample_window (Sample.daily "100.0" "102.0" "100.0" "99.0")
  = inr [("2023-01-03", 100%float); ("2023-01-04", 102%float);
         ("2023-01-05", 100%float)]%string
  /\ one_percent_change 100 102 = true
  /\ one_percent_change 102 100 = true
  /\ (let (r, w') := sample_prices (Sample.daily "100.0" "102.0" "100.0" "99.0") in
      on_success (fun rows => map Date rows = ["2023-01-04"; "2023-01-03"]%string) r
      /\ map (fun q => dict_get "from" (params q)) (requests w')
         = [Some "2023-01-04"; Some "2023-01-03"]%string).
Proof. vm_compute. repeat split. Qed.



(** C4 on the five companies of the script, when the request for the
    third one fails: the report holds the rows of the four others. *)
Example third_of_five_fails :
  map Company
    (fst (batch_loop Sample.float_of_decimal Sample.api_keys
            (Sample.stock_answers_but "ORCL"
               (Sample.daily "101.5" "102.0" "100.0" "99.0"))
            (Sample.news_answers Sample.headline) (list event)
            companies [] Sample.start))
  = ["Ibm"; "Tesla"; "blablabla"; "Amazon"]%string.
Proof. vm_compute. reflexivity. Qed.

Lemma empty_articles_witness :
  let headline :=
    (get_news Sample.api_keys (Sample.news_answers Sample.no_articles) (list event)
       "Ibm" "2023-01-04"
     ≫= process_news (list event)) in
  let answer : exn + news_json := inr Sample.no_articles in
  (forall n, answer = inr n -> articles n = Some [] ->
     fst (headline Sample.start) = inr no_articles_found)
  /\ (forall e, fst (headline Sample.start) = inl e -> answer = inl e).
Proof.
  apply (empty_articles_give_the_literal Sample.api_keys
           (Sample.news_answers Sample.no_articles) (list event)
           "Ibm" "2023-01-04" "key-n" Sample.start).
  reflexivity.
Defined.

(** C10: a list whose first article has no title while a later one has.
    The frame has a column ["title"], its cell on the first row is the
    missing-value marker, and that is what [process_news] returns. *)
Lemma untitled_first_article_gives_nan :
  dict_get "title" [("author", FStr "A. Writer")]%string = None
  /\ process_news (list event) Sample.untitled_first Sample.start
     = (inr None, Sample.start)
  /\ fst (process_news (list event) Sample.untitled_first Sample.start)
     <> inr no_articles_found.
Proof. vm_compute. repeat split; discriminate. Qed.

Lemma no_title_anywhere_witness :
  process_news (list event)
    {| articles := Some [[("author", FStr "A. Writer")]; []]%string |} Sample.start
  = (inr no_articles_found,
     logged (list event) (LogText "No articles found!") Sample.start).
Proof.
  apply (no_title_anywhere_gives_the_literal (list event)
           {| articles := Some [[("author", FStr "A. Writer")]; []]%string |}
           Sample.start).
  simpl. repeat constructor.
Defined.

(** C6: a database that refuses the rows.  [load_to_db] raises to its
    caller; in the script the exception is logged once and
    [out_db_result.csv] is not written, [read_from_db] having not run. *)
Lemma load_to_db_raises_to_its_caller :
  fst (load_to_db Sample.db_conf (list event) Sample.to_sql_down [] Sample.start)
  = inl DatabaseError
  /\ (let w := main Sample.float_of_decimal Sample.api_keys Sample.db_conf
                 (Sample.stock_answers (Sample.daily "101.5" "102.0" "100.0" "99.0"))
                 (Sample.news_answers Sample.headline) (list event)
                 Sample.to_sql_down Sample.read_sql_oracle Sample.start in
      errors_logged w = [LogExn DatabaseError]
      /\ files w !! "out_db_result.csv"%string = None
      /\ is_Some (files w !! "out_result.csv"%string)).
Proof. vm_compute. repeat split. by eexists. Qed.

Lemma window_witness :
  let days :=
    [("2023-01-05", Sample.day "1.0" "2.0" "0.5" "101.5" "1000");
     ("2023-01-04", Sample.day "1.0" "2.0" "0.5" "102.0" "1000");
     ("2023-01-03", Sample.day "1.0" "2.0" "0.5" "100.0" "1000");
     ("2023-01-02", Sample.day "1.0" "2.0" "0.5" "99.0" "1000")]%string in
  let prices :=
    [("2023-01-05", 101.5%float); ("2023-01-04", 102%float);
     ("2023-01-03", 100%float)]%string in
  let sorted :=
    [("2023-01-03", 100%float); ("2023-01-04", 102%float);
     ("2023-01-05", 101.5%float)]%string in
  sort_index prices = sorted
  /\ last_3_days_closing Sample.float_of_decimal
       {| index := ["1. open"; "2. high"; "3. low"; "4. close"; "5. volume"]%string;
          columns := days |}
     = inr (sort_index prices).
Proof.
  intros days prices sorted. split; [vm_compute; reflexivity|].
  refine (proj1 (proj2 (proj2
    (window_is_row_3_of_first_3_columns_sorted Sample.float_of_decimal
       Sample.api_keys (Sample.news_answers Sample.headline) (list event)
       "IBM" "Ibm" [("Time Series (Daily)", JObj days)]%string days
       {| index := ["1. open"; "2. high"; "3. low"; "4. close"; "5. volume"]%string;
          columns := days |}
       "4. close" prices Sample.start _ _ _ _)))).
  - reflexivity.
  - reflexivity.
  - reflexivity.
  - vm_compute. reflexivity.
Defined.

(** C9, on one company whose window is 100, 102, 100: its two rows are in
    the report in the order of the pairs, the second one dated before the
    first. *)
Theorem repeated_price_rows_are_not_in_date_order :
  let report :=
    fst (batch_loop Sample.float_of_decimal Sample.api_keys
           (Sample.stock_answers (Sample.daily "100.0" "102.0" "100.0" "99.0"))
           (Sample.news_answers Sample.headline) (list event)
           [("IBM", "Ibm")]%string [] Sample.start) in
  map Date report = ["2023-01-04"; "2023-01-03"]%string
  /\ String.ltb "2023-01-03" "2023-01-04" = true.
Proof. vm_compute. split; reflexivity. Qed.

(** * More runs on the sample payloads *)

Lemma rows_are_dated_with_the_later_day_witness :
  exists rows w',
    sample_prices (Sample.daily "101.5" "102.0" "100.0" "99.0") = (inr rows, w')
    /\ map Date rows
       = (if one_percent_change 100 102 then ["2023-01-04"%string] else [])
         ++ (if one_percent_change 102 101.5 then ["2023-01-05"%string] else [])
    /\ requests w'
       = requests Sample.start
         ++ map (fun e => news_request "Ibm" (Date e) "key-n") rows.
Proof.
  eapply (rows_are_dated_with_the_later_day Sample.float_of_decimal Sample.api_keys
            (Sample.news_answers Sample.headline) (list event) "IBM" "Ibm" "key-n"
            (Sample.daily "101.5" "102.0" "100.0" "99.0") _ _
            "2023-01-03" "2023-01-04" "2023-01-05" 100 102 101.5 Sample.start).
  - reflexivity.
  - reflexivity.
  - vm_compute. reflexivity.
  - reflexivity.
  - intros h r. exists Sample.headline. reflexivity.
  - vm_compute. reflexivity.
  - vm_compute. reflexivity.
  - vm_compute. reflexivity.
Defined.

Lemma missing_news_key_witness :
  process_stock_prices Sample.float_of_decimal [("alphavantage", "key-a")]%string
    (Sample.news_answers Sample.headline) (list event) "IBM" "Ibm"
    (Sample.daily "101.5" "102.0" "100.0" "99.0") Sample.start
  = (inl (EmptyResultException "Stock not found!" "IBM"), Sample.start).
Proof.
  eapply (missing_news_key_is_reported_as_stock_not_found Sample.float_of_decimal
            [("alphavantage", "key-a")]%string (Sample.news_answers Sample.headline)
            (list event) "IBM" "Ibm" (Sample.daily "101.5" "102.0" "100.0" "99.0") _ _
            "2023-01-03" "2023-01-04" 100 102 [("2023-01-05"%string, 101.5%float)]
            Sample.start).
  - reflexivity.
  - reflexivity.
  - vm_compute. reflexivity.
  - vm_compute. reflexivity.
  - reflexivity.
Defined.

Lemma missing_close_witness :
  sample_prices
    (JObj [("Time Series (Daily)",
            JObj [("2023-01-05", Sample.day "1.0" "2.0" "0.5" "101.5" "1000");
                  ("2023-01-04",
                   JObj [("1. open", JStr "1.0"); ("2. high", JStr "2.0");
                         ("3. low", JStr "0.5"); ("5. volume", JStr "1000")]);
                  ("2023-01-03", Sample.day "1.0" "2.0" "0.5" "100.0" "1000")])]%string)
  = (inr [], Sample.start).
Proof.
  eapply (missing_close_gives_no_row Sample.float_of_decimal Sample.api_keys
            (Sample.news_answers Sample.headline) (list event) "IBM" "Ibm" _ _ _
            "2023-01-03" "2023-01-04" "2023-01-05" 100 101.5 Sample.start).
  - reflexivity.
  - reflexivity.
  - vm_compute. reflexivity.
Defined.

Lemma unreadable_close_witness :
  sample_prices (Sample.daily "101.5" "n/a" "100.0" "99.0")
  = (inl ValueError, Sample.start)
  /\ (ValueError = ValueError \/ ValueError = TypeError).
Proof.
  eapply (unreadable_close_raises_the_conversion_error Sample.float_of_decimal
            Sample.api_keys (Sample.news_answers Sample.headline) (list event)
            "IBM" "Ibm" (Sample.daily "101.5" "n/a" "100.0" "99.0") _ _ _
            ValueError Sample.start).
  - reflexivity.
  - reflexivity.
  - reflexivity.
  - vm_compute. reflexivity.
Defined.

Lemma first_title_witness :
  process_news (list event) Sample.headline Sample.start
  = (inr (Some (FStr "Shares move")), Sample.start).
Proof.
  apply (first_title_is_returned (list event) Sample.headline
           [("author", FNull); ("title", FStr "Shares move")]%string []
           (FStr "Shares move") Sample.start); reflexivity.
Defined.

Lemma one_stock_request_per_company_witness :
  filter (fun q => url q = "https://www.alphavantage.co/query"%string)
    (requests
       (snd (batch_loop Sample.float_of_decimal Sample.api_keys
               (Sample.stock_answers_but "ORCL"
                  (Sample.daily "101.5" "102.0" "100.0" "99.0"))
               (Sample.news_answers Sample.headline) (list event)
               companies [] Sample.start)))
  = filter (fun q => url q = "https://www.alphavantage.co/query"%string)
      (requests Sample.start)
    ++ map (fun it => stock_request (fst it) "key-a") companies.
Proof.
  apply (one_stock_request_per_company Sample.float_of_decimal Sample.api_keys
           (Sample.stock_answers_but "ORCL"
              (Sample.daily "101.5" "102.0" "100.0" "99.0"))
           (Sample.news_answers Sample.headline) (list event)
           companies [] Sample.start "key-a").
  reflexivity.
Defined.

Lemma row_3_is_the_fourth_field_witness :
  exists df,
    pd_DataFrame
      (JObj [("2023-01-05", Sample.day "1.0" "2.0" "0.5" "101.5" "1000");
             ("2023-01-04", Sample.day "1.0" "2.0" "0.5" "102.0" "1000")]%string)
    = inr df
    /\ index df = ["1. open"; "2. high"; "3. low"; "4. close"; "5. volume"]%string
    /\ iloc df 3 3
       = inr (map (fun c => (fst c, cell_at (snd c) "4. close"))
                (take 3
                   [("2023-01-05", Sample.day "1.0" "2.0" "0.5" "101.5" "1000");
                    ("2023-01-04", Sample.day "1.0" "2.0" "0.5" "102.0" "1000")]%string)).
Proof.
  apply (row_3_is_the_fourth_field
           [("2023-01-05", Sample.day "1.0" "2.0" "0.5" "101.5" "1000");
            ("2023-01-04", Sample.day "1.0" "2.0" "0.5" "102.0" "1000")]%string
           ["1. open"; "2. high"; "3. low"; "4. close"; "5. volume"]%string
           "4. close").
  - discriminate.
  - apply (bool_decide_unpack _). vm_compute. exact I.
  - repeat constructor; eexists; split; reflexivity.
  - reflexivity.
Defined.

Lemma failures_are_logged_in_order_witness :
  exceptions_logged (list event)
    (logged (list event) (LogExn HTTPError)
       (snd (company_report Sample.float_of_decimal Sample.api_keys
               (Sample.stock_answers_but "ORCL"
                  (Sample.daily "101.5" "102.0" "100.0" "99.0"))
               (Sample.news_answers Sample.headline) (list event)
               "ORCL" "Oracle" Sample.start)))
  = exceptions_logged (list event) Sample.start ++ failures [inl HTTPError].
Proof.
  apply (failures_are_logged_in_order Sample.float_of_decimal Sample.api_keys
           (Sample.stock_answers_but "ORCL"
              (Sample.daily "101.5" "102.0" "100.0" "99.0"))
           (Sample.news_answers Sample.headline) (list event)
           [("ORCL", "Oracle")]%string).
  eapply batch_failure; [vm_compute; reflexivity|apply batch_done].
Defined.

Lemma sort_index_ignores_the_order_witness :
  sort_index [("2023-01-05", 101.5%float); ("2023-01-04", 102%float);
              ("2023-01-03", 100%float)]%string
  = sort_index [("2023-01-04", 102%float); ("2023-01-03", 100%float);
                ("2023-01-05", 101.5%float)]%string.
Proof.
  apply sort_index_ignores_the_order_of_the_days.
  - apply (Permutation_cons_app [_; _] []). reflexivity.
  - apply (bool_decide_unpack _). vm_compute. exact I.
Defined.

Lemma verify_reads_what_persist_left_witness :
  database
    (persistence_block Sample.db_conf (list event) Sample.to_sql_ok
       Sample.read_sql_oracle
       [{| Company := "Oracle"; Date := "2023-01-04"; Positive_change := 2;
           Title_of_most_recent_article := None |};
        {| Company := "Ibm"; Date := "2023-01-04"; Positive_change := 2;
           Title_of_most_recent_article := None |}]
       Sample.start)
  = [{| Company := "Oracle"; Date := "2023-01-04"; Positive_change := 2;
        Title_of_most_recent_article := None |};
     {| Company := "Ibm"; Date := "2023-01-04"; Positive_change := 2;
        Title_of_most_recent_article := None |}]
  /\ files
       (persistence_block Sample.db_conf (list event) Sample.to_sql_ok
          Sample.read_sql_oracle
          [{| Company := "Oracle"; Date := "2023-01-04"; Positive_change := 2;
              Title_of_most_recent_article := None |};
           {| Company := "Ibm"; Date := "2023-01-04"; Positive_change := 2;
              Title_of_most_recent_article := None |}]
          Sample.start)
     = <["out_db_result.csv"%string :=
           Csv [{| Company := "Oracle"; Date := "2023-01-04"; Positive_change := 2;
                   Title_of_most_recent_article := None |}]]> (files Sample.start)
  /\ errors_logged
       (persistence_block Sample.db_conf (list event) Sample.to_sql_ok
          Sample.read_sql_oracle
          [{| Company := "Oracle"; Date := "2023-01-04"; Positive_change := 2;
              Title_of_most_recent_article := None |};
           {| Company := "Ibm"; Date := "2023-01-04"; Positive_change := 2;
              Title_of_most_recent_article := None |}]
          Sample.start)
     = errors_logged Sample.start
  /\ requests
       (persistence_block Sample.db_conf (list event) Sample.to_sql_ok
          Sample.read_sql_oracle
          [{| Company := "Oracle"; Date := "2023-01-04"; Positive_change := 2;
              Title_of_most_recent_article := None |};
           {| Company := "Ibm"; Date := "2023-01-04"; Positive_change := 2;
              Title_of_most_recent_article := None |}]
          Sample.start)
     = requests Sample.start.
Proof.
  eapply (verify_reads_what_persist_left Sample.db_conf (list event) Sample.to_sql_ok
           Sample.read_sql_oracle _ _ Sample.start "report" _ _); reflexivity.
Defined.

Lemma missing_table_name_witness :
  persistence_block [("user", "u")]%string (list event) Sample.to_sql_ok
    Sample.read_sql_oracle [] Sample.start
  = logged (list event) (LogExn KeyError) Sample.start.
Proof.
  apply (missing_table_name_is_logged [("user", "u")]%string (list event)
           Sample.to_sql_ok Sample.read_sql_oracle [] Sample.start).
  reflexivity.
Defined.

Lemma short_frame_witness :
  sample_prices
    (JObj [("Time Series (Daily)",
            JObj [("2023-01-05",
                   JObj [("1. open", JStr "1.0"); ("2. high", JStr "2.0");
                         ("4. close", JStr "100.0")])])]%string)
  = (inl IndexError, Sample.start).
Proof.
  eapply (short_frame_raises_IndexError Sample.float_of_decimal Sample.api_keys
            (Sample.news_answers Sample.headline) (list event) "IBM" "Ibm" _ _ _
            Sample.start).
  - reflexivity.
  - reflexivity.
  - simpl. lia.
Defined.
